(** * Rate cache and conversion engine of the currency converter

    A shallow embedding of [CurrencyConverter] (src/config/converter.py) and
    the properties of its cache and conversion logic.

    Modelling conventions.
    - Python strings are [string]s; [upper] acts on the ASCII letters, which
      is what [str.upper] does on ASCII text such as currency codes.
    - Python floats are the kernel's binary64 floats ([PrimFloat.float]).
    - A [datetime] is an integer count of microseconds since [datetime.min],
      a [timedelta] an integer count of microseconds; adding a number of
      seconds to a [datetime] raises [OverflowError] as CPython's [datetime]
      does when the [timedelta] or the sum is out of range.
    - Paths are POSIX paths, read as [pathlib] reads them and given from the
      cache directory.
    - The dictionaries handled by the converter are [pydict]s: the four keys
      the code touches, each present or absent.
    - [datetime.now()], the cache directory, the rate provider and the
      logger are the environment: a [World] carries the files of the cache
      directory, an oracle for the successive clock readings, the faults of
      the storage layer, and the trace of the effects performed so far.
    - A method is a function in the monad [M]: it takes a world and gives a
      value or a raised exception, and the world it leaves behind. *)

From Stdlib Require Import ZArith String Ascii PrimFloat List.
From Stdlib Require Import DecimalString DecimalZ.
From Stdlib Require Uint63 FloatOps SpecFloat.
From stdpp Require Import gmap strings.

Open Scope Z_scope.

(** ** Exceptions *)

Inductive exn_class :=
| ValueError
| KeyError
| TypeError
| OSError
| OverflowError
| JSONDecodeError
| ConnectionError
| InvalidCurrencyError
| APIError.

(** An exception object: its class and [str(e)]. *)
Record exn := Exception { exn_type : exn_class; exn_str : string }.

Inductive result (A : Type) :=
| Ok (a : A)
| Raise (e : exn).
Arguments Ok {A} a.
Arguments Raise {A} e.

(** ** Data *)

(** A dictionary with the keys ['base'], ['rates'], ['date'] and
    ['expires_at']; [None] is an absent key.  The provider's answer and the
    cache entry ([data] in [_save_rates_to_cache]) are both of this shape. *)
Record pydict := Dict {
  d_base : option string;
  d_rates : option (gmap string float);
  d_date : option string;
  d_expires_at : option string
}.

(** Truth value of a dictionary: non-empty. *)
Definition dict_truthy (d : pydict) : bool :=
  match d_base d, d_rates d, d_date d, d_expires_at d with
  | None, None, None, None => false
  | _, _, _, _ => true
  end.

(** [amount: Union[float, str]] *)
Inductive amount_arg :=
| AmountFloat (x : float)
| AmountStr (s : string).

(** A file of the cache directory, as [open] and [json.load] see it: either
    reading it raises (no permission, not JSON, not an object), or it holds
    an object. *)
Inductive file :=
| Unreadable (e : exn)
| Json (d : pydict).

(** How the write of a cache file fails: either [open(cache_file, 'w')]
    raises [e] and the file is as it was, or the file is opened, which
    empties it, and [json.dump] or the closing of the file raises [e].  The
    file is then left with a part of the text, which is not a JSON document:
    reading it raises [x] ([Some x]); or, when the failure came after the
    last of the text, with the whole of it ([None]). *)
Inductive write_failure :=
| OpenFails (e : exn)
| DumpFails (e : exn) (leftover : option exn).

(** The file that a failed write of [data] leaves behind. *)
Definition left_behind (leftover : option exn) (data : pydict) : file :=
  match leftover with
  | Some x => Unreadable x
  | None => Json data
  end.

(** ** Effects *)

Inductive event :=
| FsExists (path : string)
| FsOpenRead (path : string)
| FsOpenWrite (path : string)
| ApiGetRates (base_currency : string)
| LogInfo (msg : string)
| LogError (msg : string).

Record World := mkWorld {
  files : gmap string file;
  write_fault : string -> option write_failure;
  clock : nat -> Z;
  ticks : nat;
  trace : list event
}.

Definition is_fetch (e : event) : bool :=
  match e with ApiGetRates _ => true | _ => false end.

Definition is_cache_access (e : event) : bool :=
  match e with
  | FsExists _ | FsOpenRead _ | FsOpenWrite _ => true
  | _ => false
  end.

(** Number of provider fetches recorded in a trace. *)
Definition fetch_count (t : list event) : nat :=
  length (List.filter is_fetch t).

(** Number of accesses to the cache directory recorded in a trace. *)
Definition cache_access_count (t : list event) : nat :=
  length (List.filter is_cache_access t).

(** The rate provider: [get_rates n b] is the outcome of the call of
    [api_client.get_rates(b)] made after [n] earlier calls. *)
Record APIClient := mkAPIClient {
  get_rates : nat -> string -> result pydict;
  cache_timeout : Z
}.

(** ** The monad of methods *)

Definition M (A : Type) : Type := World -> result A * World.

Definition ret {A} (a : A) : M A := fun w => (Ok a, w).

Definition raise {A} (e : exn) : M A := fun w => (Raise e, w).

Definition bind {A B} (m : M A) (k : A -> M B) : M B :=
  fun w =>
    match m w with
    | (Ok a, w') => k a w'
    | (Raise e, w') => (Raise e, w')
    end.

(** [try: m  except Exception as e: h e] *)
Definition try_except {A} (m : M A) (h : exn -> M A) : M A :=
  fun w =>
    match m w with
    | (Ok a, w') => (Ok a, w')
    | (Raise e, w') => h e w'
    end.

Notation "'let!' x ':=' m 'in' k" := (bind m (fun x => k))
  (at level 10, x name, m at level 100, k at level 200).
Notation "'do!' m 'in' k" := (bind m (fun _ => k))
  (at level 10, m at level 100, k at level 200).

(** The three ways a method changes the world. *)
Definition record_event (e : event) (w : World) : World :=
  {| files := files w; write_fault := write_fault w; clock := clock w;
     ticks := ticks w; trace := trace w ++ [e] |}.

Definition tick (w : World) : World :=
  {| files := files w; write_fault := write_fault w; clock := clock w;
     ticks := S (ticks w); trace := trace w |}.

Definition write_file (path : string) (f : file) (w : World) : World :=
  {| files := <[path := f]> (files w); write_fault := write_fault w;
     clock := clock w; ticks := ticks w; trace := trace w |}.

Definition emit (e : event) : M unit :=
  fun w => (Ok tt, record_event e w).

(** [datetime.now()]: the next reading of the clock. *)
Definition datetime_now : M Z :=
  fun w => (Ok (clock w (ticks w)), tick w).

(** [cache_file.exists()] *)
Definition path_exists (path : string) : M bool :=
  do! emit (FsExists path) in
  fun w => (Ok (match files w !! path with Some _ => true | None => false end), w).

(** [with open(cache_file, 'r') as f: json.load(f)] *)
Definition json_load (path : string) : M pydict :=
  do! emit (FsOpenRead path) in
  fun w =>
    match files w !! path with
    | Some (Json d) => (Ok d, w)
    | Some (Unreadable e) => (Raise e, w)
    | None => (Raise (Exception OSError "No such file or directory"), w)
    end.

(** [with open(cache_file, 'w') as f: json.dump(data, f)], with the faults
    of the storage layer. *)
Definition json_dump (path : string) (data : pydict) : M unit :=
  do! emit (FsOpenWrite path) in
  fun w =>
    match write_fault w path with
    | Some (OpenFails e) => (Raise e, w)
    | Some (DumpFails e leftover) =>
        (Raise e, write_file path (left_behind leftover data) w)
    | None => (Ok tt, write_file path (Json data) w)
    end.

(** [d[key]] on an absent key raises [KeyError(key)], whose [str] is the
    [repr] of the key. *)
Definition getitem {A} (key : string) (field : option A) : M A :=
  match field with
  | Some v => ret v
  | None => raise (Exception KeyError ("'" +:+ key +:+ "'"))
  end.

(** ** Strings *)

Definition upper_ascii (c : ascii) : ascii :=
  let n := nat_of_ascii c in
  if (Nat.leb 97 n && Nat.leb n 122)%bool then ascii_of_nat (n - 32) else c.

(** [str.upper] *)
Fixpoint upper (s : string) : string :=
  match s with
  | EmptyString => EmptyString
  | String c s' => String (upper_ascii c) (upper s')
  end.

(** [timedelta(seconds=n)], in microseconds. *)
Definition timedelta_seconds (n : Z) : Z := n * 1000000.

(** [datetime.max], 9999-12-31T23:59:59.999999. *)
Definition datetime_max : Z := 3652059 * 86400000000 - 1.

Definition is_datetime (t : Z) : bool := (0 <=? t) && (t <=? datetime_max).

(** The value of [now + timedelta(seconds=n)] for an integer [n].  The
    [timedelta] is built first: its number of days has to fit a C int and
    to be at most 999999999 in magnitude; then the sum has to be a
    [datetime].  The descriptions are those of CPython. *)
Definition plus_seconds (now n : Z) : result Z :=
  let days := n / 86400 in
  if (days <? - 2147483648) || (2147483647 <? days) then
    Raise (Exception OverflowError "Python int too large to convert to C int")
  else if (days <? - 999999999) || (999999999 <? days) then
    Raise (Exception OverflowError
             ("days=" +:+ NilEmpty.string_of_int (Z.to_int days)
              +:+ "; must have magnitude <= 999999999"))
  else if is_datetime (now + timedelta_seconds n) then
    Ok (now + timedelta_seconds n)
  else Raise (Exception OverflowError "date value out of range").
Arguments plus_seconds : simpl never.

(** [now + timedelta(seconds=n)] *)
Definition datetime_plus_seconds (now n : Z) : M Z :=
  fun w => (plus_seconds now n, w).

(** ** Paths *)

(** [name.split('/')] *)
Fixpoint split_slash (name : string) : list string :=
  match name with
  | EmptyString => [EmptyString]
  | String c rest =>
      if Ascii.eqb c "/" then EmptyString :: split_slash rest
      else
        match split_slash rest with
        | part :: parts => String c part :: parts
        | [] => [String c EmptyString]
        end
  end.

(** The parts [pathlib] keeps of a name: empty parts and ["."] parts are
    dropped, [".."] parts are kept. *)
Definition path_parts (name : string) : list string :=
  List.filter (fun part => negb (String.eqb part "") && negb (String.eqb part "."))
    (split_slash name).

Fixpoint leading_slashes (name : string) : nat :=
  match name with
  | String c rest => if Ascii.eqb c "/" then S (leading_slashes rest) else 0%nat
  | EmptyString => 0%nat
  end.

Fixpoint join_slash (parts : list string) : string :=
  match parts with
  | [] => EmptyString
  | [part] => part
  | part :: parts => part +:+ "/" +:+ join_slash parts
  end.

(** [cache_dir / name]: the path of [name] from the cache directory, or the
    absolute path that [name] is when it starts with a slash (exactly two
    leading slashes are kept, as POSIX has it). *)
Definition cache_path (name : string) : string :=
  match leading_slashes name with
  | 0%nat => join_slash (path_parts name)
  | 2%nat => "//" +:+ join_slash (path_parts name)
  | _ => "/" +:+ join_slash (path_parts name)
  end.

(** ** CurrencyConverter *)

Section CurrencyConverter.

(** The library functions the converter calls: [float] on a string,
    [datetime.isoformat], [datetime.fromisoformat] and
    [str(datetime.date())]. *)
Variable float_of_str : string -> option float.
Variable isoformat : Z -> string.
Variable fromisoformat : string -> option Z.
Variable date_str : Z -> string.

(** [self.api_client] *)
Variable api_client : APIClient.

(** [float(amount)] *)
Definition float_of (amount : amount_arg) : M float :=
  match amount with
  | AmountFloat x => ret x
  | AmountStr s =>
      match float_of_str s with
      | Some x => ret x
      | None => raise (Exception ValueError
                         ("could not convert string to float: '" +:+ s +:+ "'"))
      end
  end.

(** [datetime.fromisoformat(s)] *)
Definition datetime_fromisoformat (s : string) : M Z :=
  match fromisoformat s with
  | Some t => ret t
  | None => raise (Exception ValueError
                     ("Invalid isoformat string: '" +:+ s +:+ "'"))
  end.

(** [await self.api_client.get_rates(base_currency)] *)
Definition api_get_rates (base_currency : string) : M pydict :=
  fun w => (get_rates api_client (fetch_count (trace w)) base_currency,
            record_event (ApiGetRates base_currency) w).

Definition _get_cache_file (base_currency : string) : string :=
  cache_path (upper base_currency +:+ "_rates.json").

Definition _load_cached_rates (base_currency : string) : M (option pydict) :=
  let cache_file := _get_cache_file base_currency in
  let! found := path_exists cache_file in
  if found : bool then
    let! data := json_load cache_file in
    let! now := datetime_now in
    let! s := getitem "expires_at" (d_expires_at data) in
    let! expires_at := datetime_fromisoformat s in
    if now <? expires_at then ret (Some data) else ret None
  else ret None.

Definition _save_rates_to_cache (base_currency : string) (rates : pydict)
    (expires_at : Z) : M unit :=
  let cache_file := _get_cache_file base_currency in
  let! b := getitem "base" (d_base rates) in
  let! r := getitem "rates" (d_rates rates) in
  let! today := datetime_now in
  let data := {| d_base := Some b;
                 d_rates := Some r;
                 d_date := Some (default (date_str today) (d_date rates));
                 d_expires_at := Some (isoformat expires_at) |} in
  json_dump cache_file data.

(** The [try] block of [get_exchange_rates] with its handler: fetch from
    the provider, save to the cache, return the provider's answer. *)
Definition fetch_fresh_rates (base_currency : string) : M pydict :=
  try_except
    (do! emit (LogInfo ("Fetching fresh rates for " +:+ base_currency)) in
     let! rates := api_get_rates base_currency in
     let! now := datetime_now in
     let! expires_at := datetime_plus_seconds now (cache_timeout api_client) in
     do! _save_rates_to_cache base_currency rates expires_at in
     ret rates)
    (fun e =>
       do! emit (LogError ("Failed to fetch rates: " +:+ exn_str e)) in
       raise (Exception APIError
                ("Could not fetch exchange rates: " +:+ exn_str e))).

Definition get_exchange_rates (base_currency : string) : M pydict :=
  let base_currency := upper base_currency in
  let! cached_data := _load_cached_rates base_currency in
  match cached_data with
  | Some data =>
      (* [if cached_data:] is the truth value of the dictionary *)
      if dict_truthy data then
        do! emit (LogInfo ("Using cached rates for " +:+ base_currency)) in
        ret data
      else fetch_fresh_rates base_currency
  | None => fetch_fresh_rates base_currency
  end.

(** The value [float(amount)] takes when it does not raise. *)
Definition parse_amount (amount : amount_arg) : option float :=
  match amount with
  | AmountFloat x => Some x
  | AmountStr s => float_of_str s
  end.

Definition convert (amount : amount_arg) (from_currency to_currency : string)
    (date : option string) : M float :=
  let! amount :=
    try_except (float_of amount)
      (fun e =>
         match exn_type e with
         | ValueError => raise (Exception ValueError "Amount must be a number")
         | _ => raise e
         end) in
  let from_currency := upper from_currency in
  let to_currency := upper to_currency in
  if decide (from_currency = to_currency) then ret amount
  else
    let! rates := get_exchange_rates from_currency in
    let! table := getitem "rates" (d_rates rates) in
    match table !! to_currency with
    | None =>
        raise (Exception InvalidCurrencyError
                 ("Currency " +:+ to_currency +:+ " not found in rates"))
    | Some rate => ret (PrimFloat.mul amount rate)
    end.

(** [list(rates['rates'].keys())] with USD as base.  The list holds the keys
    in the order of the map; the insertion order of the dictionary is not
    modelled. *)
Definition get_supported_currencies : M (list string) :=
  let! rates := get_exchange_rates "USD" in
  let! table := getitem "rates" (d_rates rates) in
  ret (map fst (map_to_list table)).

End CurrencyConverter.

(** ** CurrencyConverterGUI (src/config/interface.py)

    The form is a record of what its widgets hold: the text variables, the
    cursor of the root window, the values offered by the two comboboxes, the
    error boxes shown so far ([messagebox.showerror(title, message)]) and
    the calls handed to [root.after].  A method of the form that calls the
    converter runs in the monad [G], over the form and the world.  The
    handlers of the form tell exceptions apart by their class;
    [InvalidCurrencyError] and [APIError] are taken as classes of their own,
    neither derived from the other. *)

(** What [root.after(100, ...)] is asked to call. *)
Inductive callback :=
| CallInitializeCurrencies
| CallAsyncPerformConversion (amount from_curr to_curr : string)
                             (date_str : option string).

Record GUI := mkGUI {
  amount_var : string;
  from_currency_var : string;
  to_currency_var : string;
  historical_date_var : string;
  result_var : string;
  status_var : string;
  cursor : string;
  from_currency_values : list string;
  to_currency_values : list string;
  error_boxes : list (string * string);
  after_calls : list callback
}.

Definition set_from_currency_var (v : string) (g : GUI) : GUI :=
  mkGUI (amount_var g) v (to_currency_var g) (historical_date_var g)
        (result_var g) (status_var g) (cursor g) (from_currency_values g)
        (to_currency_values g) (error_boxes g) (after_calls g).

Definition set_to_currency_var (v : string) (g : GUI) : GUI :=
  mkGUI (amount_var g) (from_currency_var g) v (historical_date_var g)
        (result_var g) (status_var g) (cursor g) (from_currency_values g)
        (to_currency_values g) (error_boxes g) (after_calls g).

Definition set_result_var (v : string) (g : GUI) : GUI :=
  mkGUI (amount_var g) (from_currency_var g) (to_currency_var g)
        (historical_date_var g) v (status_var g) (cursor g)
        (from_currency_values g) (to_currency_values g) (error_boxes g)
        (after_calls g).

Definition set_status_var (v : string) (g : GUI) : GUI :=
  mkGUI (amount_var g) (from_currency_var g) (to_currency_var g)
        (historical_date_var g) (result_var g) v (cursor g)
        (from_currency_values g) (to_currency_values g) (error_boxes g)
        (after_calls g).

(** [self.root.config(cursor=v)] *)
Definition config_cursor (v : string) (g : GUI) : GUI :=
  mkGUI (amount_var g) (from_currency_var g) (to_currency_var g)
        (historical_date_var g) (result_var g) (status_var g) v
        (from_currency_values g) (to_currency_values g) (error_boxes g)
        (after_calls g).

(** [self.from_currency_combobox['values'] = v] *)
Definition set_from_currency_values (v : list string) (g : GUI) : GUI :=
  mkGUI (amount_var g) (from_currency_var g) (to_currency_var g)
        (historical_date_var g) (result_var g) (status_var g) (cursor g)
        v (to_currency_values g) (error_boxes g) (after_calls g).

Definition set_to_currency_values (v : list string) (g : GUI) : GUI :=
  mkGUI (amount_var g) (from_currency_var g) (to_currency_var g)
        (historical_date_var g) (result_var g) (status_var g) (cursor g)
        (from_currency_values g) v (error_boxes g) (after_calls g).

(** [messagebox.showerror(title, message)] *)
Definition showerror (title message : string) (g : GUI) : GUI :=
  mkGUI (amount_var g) (from_currency_var g) (to_currency_var g)
        (historical_date_var g) (result_var g) (status_var g) (cursor g)
        (from_currency_values g) (to_currency_values g)
        (error_boxes g ++ [(title, message)]) (after_calls g).

(** [self.root.after(100, c)] *)
Definition root_after (c : callback) (g : GUI) : GUI :=
  mkGUI (amount_var g) (from_currency_var g) (to_currency_var g)
        (historical_date_var g) (result_var g) (status_var g) (cursor g)
        (from_currency_values g) (to_currency_values g) (error_boxes g)
        (after_calls g ++ [c]).

Definition G (A : Type) : Type := GUI -> World -> result A * (GUI * World).

Definition gret {A} (a : A) : G A := fun g w => (Ok a, (g, w)).

Definition gbind {A B} (m : G A) (k : A -> G B) : G B :=
  fun g w =>
    match m g w with
    | (Ok a, (g', w')) => k a g' w'
    | (Raise e, gw) => (Raise e, gw)
    end.

(** A method of the converter, awaited by a method of the form. *)
Definition await {A} (m : M A) : G A :=
  fun g w => match m w with (r, w') => (r, (g, w')) end.

(** A change of the form. *)
Definition widget (f : GUI -> GUI) : G unit :=
  fun g w => (Ok tt, (f g, w)).

(** [try: m  except Exception as e: h e] *)
Definition gtry {A} (m : G A) (h : exn -> G A) : G A :=
  fun g w =>
    match m g w with
    | (Ok a, gw) => (Ok a, gw)
    | (Raise e, (g', w')) => h e g' w'
    end.

(** [try: m  finally: fin]: [fin] runs whatever [m] did; what it raises
    replaces the outcome of [m]. *)
Definition gfinally {A} (m : G A) (fin : G unit) : G A :=
  fun g w =>
    match m g w with
    | (r, (g', w')) =>
        match fin g' w' with
        | (Ok _, gw) => (r, gw)
        | (Raise e, gw) => (Raise e, gw)
        end
    end.

Notation "'let@' x ':=' m 'in' k" := (gbind m (fun x => k))
  (at level 10, x name, m at level 100, k at level 200).
Notation "'do@' m 'in' k" := (gbind m (fun _ => k))
  (at level 10, m at level 100, k at level 200).

(** [str(n)] for a length. *)
Definition str_of_nat (n : nat) : string :=
  NilEmpty.string_of_uint (Nat.to_uint n).

(** The truth value of a string: non-empty. *)
Definition str_truthy (s : string) : bool :=
  match s with
  | EmptyString => false
  | String _ _ => true
  end.

Section CurrencyConverterGUI.

(** [self.converter], with the library functions it calls ([date_of] is
    [str(datetime.date())], named [date_str] in the converter). *)
Variable float_of_str : string -> option float.
Variable isoformat : Z -> string.
Variable fromisoformat : string -> option Z.
Variable date_of : Z -> string.
Variable api_client : APIClient.

(** [validate_amount] of the helpers, and the format [{result:.4f}]. *)
Variable validate_amount : string -> bool.
Variable format_4f : float -> string.

Definition swap_currencies (g : GUI) : GUI :=
  let from_curr := from_currency_var g in
  let to_curr := to_currency_var g in
  set_to_currency_var from_curr (set_from_currency_var to_curr g).

Definition initialize_currencies : G unit :=
  do@ widget (set_status_var "Loading currencies...") in
  do@ widget (config_cursor "watch") in
  gfinally
    (gtry
       (let@ currencies :=
          await (get_supported_currencies isoformat fromisoformat date_of
                   api_client) in
        do@ widget (set_from_currency_values currencies) in
        do@ widget (set_to_currency_values currencies) in
        widget (set_status_var
                  ("Loaded " +:+ str_of_nat (length currencies)
                   +:+ " currencies")))
       (fun e =>
          do@ await (emit (LogError ("Failed to load currencies: "
                                     +:+ exn_str e))) in
          do@ widget (showerror "Error"
                        ("Failed to load currencies: " +:+ exn_str e)) in
          widget (set_status_var "Currency load failed")))
    (widget (config_cursor "")).

Definition perform_conversion (g : GUI) : GUI :=
  let amount := amount_var g in
  let from_curr := from_currency_var g in
  let to_curr := to_currency_var g in
  let date_str :=
    if str_truthy (historical_date_var g) then Some (historical_date_var g)
    else None in
  if negb (validate_amount amount) then
    showerror "Error" "Please enter a valid amount" g
  else if (negb (str_truthy from_curr) || negb (str_truthy to_curr))%bool then
    showerror "Error" "Please select both currencies" g
  else
    root_after (CallAsyncPerformConversion amount from_curr to_curr date_str) g.

Definition _async_perform_conversion (amount from_curr to_curr : string)
    (date_str : option string) : G unit :=
  do@ widget (set_status_var "Converting...") in
  do@ widget (config_cursor "watch") in
  gfinally
    (gtry
       (let@ result :=
          await (convert float_of_str isoformat fromisoformat date_of
                   api_client (AmountStr amount) from_curr to_curr date_str) in
        do@ widget (set_result_var
                      (amount +:+ " " +:+ from_curr +:+ " = "
                       +:+ format_4f result +:+ " " +:+ to_curr)) in
        widget (set_status_var "Conversion successful"))
       (fun e =>
          match exn_type e with
          | InvalidCurrencyError =>
              do@ widget (showerror "Error"
                            ("Invalid currency: " +:+ exn_str e)) in
              widget (set_status_var "Invalid currency")
          | APIError =>
              do@ widget (showerror "Error" ("API error: " +:+ exn_str e)) in
              widget (set_status_var "API error")
          | _ =>
              do@ await (emit (LogError ("Conversion error: " +:+ exn_str e))) in
              do@ widget (showerror "Error"
                            ("Conversion failed: " +:+ exn_str e)) in
              widget (set_status_var "Conversion failed")
          end))
    (widget (config_cursor "")).

End CurrencyConverterGUI.

(** ** A sample environment

    Concrete library functions, providers and worlds on which the converter
    can be run.  Timestamps are printed as decimal numbers of microseconds
    and dates as decimal day numbers; [sample_float_of_str] reads decimal
    integers. *)

Definition sample_float_of_str (s : string) : option float :=
  match s with
  | EmptyString => None
  | _ =>
      match NilEmpty.int_of_string s with
      | Some d =>
          let z := Z.of_int d in
          Some (if z <? 0 then PrimFloat.opp (PrimFloat.of_uint63 (Uint63.of_Z (- z)))
                else PrimFloat.of_uint63 (Uint63.of_Z z))
      | None => None
      end
  end.

Definition sample_isoformat (t : Z) : string :=
  NilEmpty.string_of_int (Z.to_int t).

Definition sample_fromisoformat (s : string) : option Z :=
  option_map Z.of_int (NilEmpty.int_of_string s).

Definition sample_date_str (t : Z) : string :=
  NilEmpty.string_of_int (Z.to_int (t / 86400000000)).

(** The converter over the sample library functions. *)
Abbreviation sample_load := (_load_cached_rates sample_fromisoformat).
Abbreviation sample_save :=
  (_save_rates_to_cache sample_isoformat sample_date_str).
Abbreviation sample_get_rates :=
  (get_exchange_rates sample_isoformat sample_fromisoformat sample_date_str).
Abbreviation sample_convert :=
  (convert sample_float_of_str sample_isoformat sample_fromisoformat
     sample_date_str).
Abbreviation sample_supported :=
  (get_supported_currencies sample_isoformat sample_fromisoformat
     sample_date_str).
Abbreviation sample_async_convert :=
  (_async_perform_conversion sample_float_of_str sample_isoformat
     sample_fromisoformat sample_date_str).

(** A provider answering every request with the same two rates, and a cache
    lifetime of one hour. *)
Definition sample_rates : gmap string float :=
  <["EUR" := 0.5%float]> (<["GBP" := 0.25%float]> ∅).

Definition sample_api : APIClient :=
  {| get_rates := fun _ b =>
       Ok {| d_base := Some b; d_rates := Some sample_rates;
             d_date := Some "2024-01-15"; d_expires_at := None |};
     cache_timeout := 3600 |}.

(** A provider whose answer lists its own base and a lowercase code. *)
Definition loose_rates : gmap string float :=
  <["USD" := 1%float]> (<["eur" := 0.5%float]> ∅).

Definition loose_api : APIClient :=
  {| get_rates := fun _ b =>
       Ok {| d_base := Some b; d_rates := Some loose_rates;
             d_date := None; d_expires_at := None |};
     cache_timeout := 3600 |}.

(** An empty cache directory; the clock advances by one second per reading. *)
Definition empty_world : World :=
  {| files := ∅; write_fault := fun _ => None;
     clock := fun n => 1000000 * Z.of_nat n; ticks := 0; trace := [] |}.



(** A cache directory whose entry for USD is not JSON. *)
Definition corrupt_world : World :=
  {| files := {[ "USD_rates.json" :=
                 Unreadable (Exception JSONDecodeError "Expecting value") ]};
     write_fault := fun _ => None;
     clock := fun n => 1000000 * Z.of_nat n; ticks := 0; trace := [] |}.

Definition sample_snapshot : pydict :=
  {| d_base := Some "USD"; d_rates := Some sample_rates;
     d_date := Some "2024-01-15"; d_expires_at := None |}.

(** A cache directory holding an entry for USD that expires after one hour
    of the sample clock. *)
Definition cached_entry : pydict :=
  {| d_base := Some "USD"; d_rates := Some sample_rates;
     d_date := Some "2024-01-15"; d_expires_at := Some "3600000000" |}.

Definition cached_world : World :=
  {| files := {[ "USD_rates.json" := Json cached_entry ]};
     write_fault := fun _ => None;
     clock := fun n => 1000000 * Z.of_nat n; ticks := 0; trace := [] |}.

(** The entry of [cached_world], seen one hour later. *)
Definition stale_world : World :=
  {| files := {[ "USD_rates.json" := Json cached_entry ]};
     write_fault := fun _ => None;
     clock := fun n => 1000000 * Z.of_nat n; ticks := 3600; trace := [] |}.

(** A fresh entry without rates. *)
Definition ratesless_entry : pydict :=
  {| d_base := Some "USD"; d_rates := None;
     d_date := Some "2024-01-15"; d_expires_at := Some "3600000000" |}.

Definition ratesless_world : World :=
  {| files := {[ "USD_rates.json" := Json ratesless_entry ]};
     write_fault := fun _ => None;
     clock := fun n => 1000000 * Z.of_nat n; ticks := 0; trace := [] |}.

(** A provider that cannot be reached, one whose answer has no base, and
    one with a cache lifetime of zero. *)
Definition down_api : APIClient :=
  {| get_rates := fun _ _ =>
       Raise (Exception ConnectionError "Connection refused");
     cache_timeout := 3600 |}.



Definition uncached_api : APIClient :=
  {| get_rates := get_rates sample_api; cache_timeout := 0 |}.

Definition dateless_snapshot : pydict :=
  {| d_base := Some "USD"; d_rates := Some sample_rates;
     d_date := None; d_expires_at := None |}.

(** A form as [setup_ui] leaves it, an amount check that accepts what
    [sample_float_of_str] reads, and the format [.4f] of the finite floats:
    the exact value times [10^4], rounded to the nearest integer, to the
    even one on a tie. *)
Definition blank_form : GUI :=
  {| amount_var := "1.00"; from_currency_var := "USD";
     to_currency_var := "EUR"; historical_date_var := "";
     result_var := ""; status_var := "Ready"; cursor := "";
     from_currency_values := []; to_currency_values := [];
     error_boxes := []; after_calls := [CallInitializeCurrencies] |}.

Definition sample_validate_amount (s : string) : bool :=
  match sample_float_of_str s with
  | Some _ => true
  | None => false
  end.

Definition decimal_of_Z (z : Z) : string :=
  NilEmpty.string_of_uint (N.to_uint (Z.to_N z)).

Definition sample_format_4f (x : float) : string :=
  match FloatOps.Prim2SF x with
  | SpecFloat.S754_nan => "nan"
  | SpecFloat.S754_infinity s => if s then "-inf" else "inf"
  | SpecFloat.S754_zero s => if s then "-0.0000" else "0.0000"
  | SpecFloat.S754_finite s m e =>
      let num := Z.pos m * 10000 in
      let n :=
        if 0 <=? e then num * 2 ^ e
        else
          let den := 2 ^ (- e) in
          let q := num / den in
          let r := num mod den in
          if (den <? 2 * r) || ((den =? 2 * r) && Z.odd q) then q + 1 else q in
      (if s then "-" else "")
      +:+ decimal_of_Z (n / 10000) +:+ "."
      +:+ match decimal_of_Z (10000 + n mod 10000) with
          | String _ digits => digits
          | EmptyString => EmptyString
          end
  end.


(** The invariant the specification states for a stored snapshot: the keys
    of its rates are uppercase codes and its base is not one of them. *)
Definition keys_uppercase (r : gmap string float) : Prop :=
  map_Forall (fun k _ => upper k = k) r.

Definition snapshot_invariant (d : pydict) : Prop :=
  match d_base d, d_rates d with
  | Some b, Some r => keys_uppercase r /\ r !! b = None
  | _, _ => True
  end.

(** Every readable entry of the cache directory satisfies the invariant. *)
Definition cache_invariant (w : World) : Prop :=
  forall path d, files w !! path = Some (Json d) -> snapshot_invariant d.

(** [infix s t]: the string [s] occurs in [t]. *)
Definition infix (s t : string) : Prop :=
  exists pre post, t = pre +:+ s +:+ post.

(** The world after a load that found no file, and after one that opened
    the file. *)
Definition looked_up (base_currency : string) (w : World) : World :=
  record_event (FsExists (_get_cache_file base_currency)) w.

Definition opened (base_currency : string) (w : World) : World :=
  record_event (FsOpenRead (_get_cache_file base_currency))
    (looked_up base_currency w).

(** The world in which [get_exchange_rates] saves the rates it fetched: the
    fetch is logged and made, and the clock is read for the expiry. *)
Definition fetched (base_currency : string) (w : World) : World :=
  tick (record_event (ApiGetRates base_currency)
          (record_event (LogInfo ("Fetching fresh rates for " +:+ base_currency)) w)).

(** The worlds in which the fetch of fresh rates can fail, [answer] being
    what the provider gives: the provider raised, or the expiry or a key of
    the answer could not be had, or the file could not be opened, or it was
    opened and the write of the entry, which has the base and the rates of
    the answer, failed. *)
Definition failed_fetch (answer : result pydict) (b : string) (w w' : World)
  : Prop :=
  w' = record_event (ApiGetRates b)
         (record_event (LogInfo ("Fetching fresh rates for " +:+ b)) w)
  \/ w' = fetched b w
  \/ w' = record_event (FsOpenWrite (_get_cache_file b)) (tick (fetched b w))
  \/ exists leftover d data,
       answer = Ok d
       /\ d_base data = d_base d
       /\ d_rates data = d_rates d
       /\ w' = write_file (_get_cache_file b) (left_behind leftover data)
                 (record_event (FsOpenWrite (_get_cache_file b))
                    (tick (fetched b w))).


(** The form while a method of the converter is awaited. *)
Definition waiting (status : string) (g : GUI) : GUI :=
  config_cursor "watch" (set_status_var status g).

(** * Properties *)

(** ** The monad *)

Lemma bind_ok {A B} (m : M A) (k : A -> M B) w a w' :
  m w = (Ok a, w') -> bind m k w = k a w'.
Proof. intros H. unfold bind. now rewrite H. Qed.

Lemma bind_raise {A B} (m : M A) (k : A -> M B) w e w' :
  m w = (Raise e, w') -> bind m k w = (Raise e, w').
Proof. intros H. unfold bind. now rewrite H. Qed.

Lemma try_except_ok {A} (m : M A) h w a w' :
  m w = (Ok a, w') -> try_except m h w = (Ok a, w').
Proof. intros H. unfold try_except. now rewrite H. Qed.

Lemma try_except_raise {A} (m : M A) h w e w' :
  m w = (Raise e, w') -> try_except m h w = h e w'.
Proof. intros H. unfold try_except. now rewrite H. Qed.

(** ** Traces *)

Lemma fetch_count_app t1 t2 :
  fetch_count (t1 ++ t2) = (fetch_count t1 + fetch_count t2)%nat.
Proof. unfold fetch_count. now rewrite List.filter_app, length_app. Qed.


Lemma fetch_count_record e w :
  fetch_count (trace (record_event e w))
  = (if is_fetch e then S (fetch_count (trace w)) else fetch_count (trace w)).
Proof.
  unfold record_event. cbn [trace]. rewrite fetch_count_app.
  destruct e; cbn; lia.
Qed.


Lemma fetch_count_tick w : fetch_count (trace (tick w)) = fetch_count (trace w).
Proof. reflexivity. Qed.

(** ** Strings *)

Lemma upper_ascii_idempotent c : upper_ascii (upper_ascii c) = upper_ascii c.
Proof. destruct c as [[] [] [] [] [] [] [] []]; reflexivity. Qed.

Lemma upper_idempotent s : upper (upper s) = upper s.
Proof.
  induction s as [|c s IH]; simpl; [reflexivity|].
  now rewrite upper_ascii_idempotent, IH.
Qed.

Lemma get_cache_file_upper b : _get_cache_file (upper b) = _get_cache_file b.
Proof. unfold _get_cache_file. now rewrite upper_idempotent. Qed.

Lemma string_length_append s t :
  String.length (s +:+ t) = (String.length s + String.length t)%nat.
Proof.
  induction s as [|c s IH]; [reflexivity|].
  change (S (String.length (s +:+ t)) = S (String.length s + String.length t)).
  now rewrite IH.
Qed.

Lemma append_cancel_r s1 s2 t : s1 +:+ t = s2 +:+ t -> s1 = s2.
Proof.
  revert s2. induction s1 as [|c s1 IH]; intros [|c' s2] E.
  - reflexivity.
  - apply (f_equal String.length) in E.
    rewrite !string_length_append in E. cbn in E. lia.
  - apply (f_equal String.length) in E.
    rewrite !string_length_append in E. cbn in E. lia.
  - injection E as -> E. f_equal. now apply IH.
Qed.

Lemma infix_middle pre s post : infix s (pre +:+ s +:+ post).
Proof. now exists pre, post. Qed.

(** ** Datetimes *)

Lemma plus_seconds_sum now n t :
  plus_seconds now n = Ok t -> t = now + timedelta_seconds n.
Proof.
  unfold plus_seconds.
  destruct ((n / 86400 <? - 2147483648) || (2147483647 <? n / 86400));
    [discriminate|].
  destruct ((n / 86400 <? - 999999999) || (999999999 <? n / 86400));
    [discriminate|].
  destruct (is_datetime (now + timedelta_seconds n)); [|discriminate].
  now intros [= <-].
Qed.

Lemma plus_seconds_raises now n e :
  plus_seconds now n = Raise e -> exn_type e = OverflowError.
Proof.
  unfold plus_seconds.
  destruct ((n / 86400 <? - 2147483648) || (2147483647 <? n / 86400));
    [now intros [= <-]|].
  destruct ((n / 86400 <? - 999999999) || (999999999 <? n / 86400));
    [now intros [= <-]|].
  destruct (is_datetime (now + timedelta_seconds n)); [discriminate|].
  now intros [= <-].
Qed.

Lemma datetime_max_value : datetime_max = 315537897599999999.
Proof. vm_compute. reflexivity. Qed.

(** A sum of a datetime and a number of seconds that is a datetime is what
    [plus_seconds] gives: the [timedelta] between two datetimes is in
    range. *)
Lemma plus_seconds_datetimes now n :
  0 <= now <= datetime_max ->
  0 <= now + timedelta_seconds n <= datetime_max ->
  plus_seconds now n = Ok (now + timedelta_seconds n).
Proof.
  intros Hnow Hsum. unfold plus_seconds.
  assert (Hdays : - 999999999 <= n / 86400 <= 999999999).
  { rewrite datetime_max_value in Hnow, Hsum. unfold timedelta_seconds in Hsum.
    split.
    - apply Z.div_le_lower_bound; lia.
    - apply Z.div_le_upper_bound; lia. }
  assert (H1 : (n / 86400 <? - 2147483648) || (2147483647 <? n / 86400)
               = false)
    by (apply orb_false_intro; apply Z.ltb_ge; lia).
  assert (H2 : (n / 86400 <? - 999999999) || (999999999 <? n / 86400)
               = false)
    by (apply orb_false_intro; apply Z.ltb_ge; lia).
  assert (H3 : is_datetime (now + timedelta_seconds n) = true).
  { unfold is_datetime. apply andb_true_intro.
    split; apply Z.leb_le; apply Hsum. }
  now rewrite H1, H2, H3.
Qed.

(** Unfold a method down to the primitive effects and evaluate. *)
Ltac run_method :=
  unfold convert, get_exchange_rates, fetch_fresh_rates, _save_rates_to_cache,
    _load_cached_rates, api_get_rates, float_of, datetime_fromisoformat,
    path_exists, json_load, json_dump, getitem, datetime_now, emit,
    try_except, bind, ret, raise, opened, looked_up;
  cbn.

(** Use an equation between values the method inspects, and evaluate on. *)
Ltac known H := repeat (rewrite H; cbn).

Section Properties.

Variable float_of_str : string -> option float.
Variable isoformat : Z -> string.
Variable fromisoformat : string -> option Z.
Variable date_str : Z -> string.
Variable api_client : APIClient.

(** [datetime.fromisoformat] reads back what [datetime.isoformat] prints. *)
Hypothesis fromisoformat_isoformat :
  forall t, fromisoformat (isoformat t) = Some t.

Abbreviation load := (_load_cached_rates fromisoformat).
Abbreviation save := (_save_rates_to_cache isoformat date_str).
Abbreviation fetch_fresh := (fetch_fresh_rates isoformat date_str api_client).
Abbreviation get_rates_of :=
  (get_exchange_rates isoformat fromisoformat date_str api_client).
Abbreviation convert_ :=
  (convert float_of_str isoformat fromisoformat date_str api_client).

(** *** [float(amount)] *)

Lemma float_of_parsed amount a w :
  parse_amount float_of_str amount = Some a ->
  float_of float_of_str amount w = (Ok a, w).
Proof.
  destruct amount as [x|s]; simpl.
  - now intros [= ->].
  - now intros ->.
Qed.

Lemma float_of_unparsed amount w :
  parse_amount float_of_str amount = None ->
  exists e, exn_type e = ValueError
            /\ float_of float_of_str amount w = (Raise e, w).
Proof.
  destruct amount as [x|s]; simpl; [discriminate|].
  intros ->. now eexists.
Qed.

(** *** [_load_cached_rates] *)

Lemma load_missing base w :
  files w !! _get_cache_file base = None ->
  load base w = (Ok None, looked_up base w).
Proof. intros H. run_method. now known H. Qed.

Lemma load_unreadable base e w :
  files w !! _get_cache_file base = Some (Unreadable e) ->
  load base w = (Raise e, opened base w).
Proof. intros H. run_method. now known H. Qed.

Lemma load_no_expiry base d w :
  files w !! _get_cache_file base = Some (Json d) ->
  d_expires_at d = None ->
  load base w
  = (Raise (Exception KeyError "'expires_at'"), tick (opened base w)).
Proof. intros H E. run_method. known H. now known E. Qed.

Lemma load_bad_expiry base d s w :
  files w !! _get_cache_file base = Some (Json d) ->
  d_expires_at d = Some s ->
  fromisoformat s = None ->
  load base w
  = (Raise (Exception ValueError ("Invalid isoformat string: '" +:+ s +:+ "'")),
     tick (opened base w)).
Proof. intros H E F. run_method. known H. known E. now known F. Qed.

Lemma load_entry base d s expires_at w :
  files w !! _get_cache_file base = Some (Json d) ->
  d_expires_at d = Some s ->
  fromisoformat s = Some expires_at ->
  load base w
  = (Ok (if clock w (ticks w) <? expires_at then Some d else None),
     tick (opened base w)).
Proof.
  intros H E F. run_method. known H. known E. known F.
  now destruct (clock w (ticks w) <? expires_at).
Qed.

Lemma load_preserves base w :
  files (snd (load base w)) = files w
  /\ write_fault (snd (load base w)) = write_fault w
  /\ clock (snd (load base w)) = clock w
  /\ fetch_count (trace (snd (load base w))) = fetch_count (trace w).
Proof.
  assert (Hl : fetch_count (trace (looked_up base w)) = fetch_count (trace w)).
  { unfold looked_up. now rewrite fetch_count_record. }
  assert (Ho : fetch_count (trace (opened base w)) = fetch_count (trace w)).
  { unfold opened. now rewrite fetch_count_record. }
  destruct (files w !! _get_cache_file base) as [[e|d]|] eqn:H.
  - now rewrite (load_unreadable _ _ _ H).
  - destruct (d_expires_at d) as [s|] eqn:E.
    + destruct (fromisoformat s) as [t|] eqn:F.
      * now rewrite (load_entry _ _ _ _ _ H E F).
      * now rewrite (load_bad_expiry _ _ _ _ H E F).
    + now rewrite (load_no_expiry _ _ _ H E).
  - now rewrite (load_missing _ _ H).
Qed.

Lemma load_some_entry base d w w' :
  load base w = (Ok (Some d), w') ->
  files w' !! _get_cache_file base = Some (Json d)
  /\ exists s t, d_expires_at d = Some s /\ fromisoformat s = Some t.
Proof.
  intros L.
  pose proof (load_preserves base w) as (Hf & _). rewrite L in Hf. cbn in Hf.
  rewrite Hf.
  destruct (files w !! _get_cache_file base) as [[e|d0]|] eqn:H.
  - now rewrite (load_unreadable _ _ _ H) in L.
  - destruct (d_expires_at d0) as [s|] eqn:E.
    + destruct (fromisoformat s) as [t|] eqn:F.
      * rewrite (load_entry _ _ _ _ _ H E F) in L.
        destruct (clock w (ticks w) <? t); [|discriminate].
        injection L as <- _. eauto.
      * now rewrite (load_bad_expiry _ _ _ _ H E F) in L.
    + now rewrite (load_no_expiry _ _ _ H E) in L.
  - now rewrite (load_missing _ _ H) in L.
Qed.

(** C2: an entry stored with expiry [expires_at] is what [load] of its base
    currency returns while the clock reads strictly less than [expires_at];
    from [expires_at] on, [load] returns absent.  Either way the files of
    the cache are left as they were: a stale entry is not deleted. *)
Theorem load_fresh_until_expiry base d s expires_at w :
  files w !! _get_cache_file base = Some (Json d) ->
  d_expires_at d = Some s ->
  fromisoformat s = Some expires_at ->
  (clock w (ticks w) < expires_at -> fst (load base w) = Ok (Some d))
  /\ (expires_at <= clock w (ticks w) -> fst (load base w) = Ok None)
  /\ files (snd (load base w)) = files w.
Proof.
  intros H E F. rewrite (load_entry _ _ _ _ _ H E F). cbn.
  repeat split.
  - intros Hlt. apply Z.ltb_lt in Hlt. now rewrite Hlt.
  - intros Hge. apply Z.ltb_ge in Hge. now rewrite Hge.
Qed.

(** *** [_save_rates_to_cache] *)

Lemma save_ok b rates bs r expires_at w :
  d_base rates = Some bs ->
  d_rates rates = Some r ->
  write_fault w (_get_cache_file b) = None ->
  save b rates expires_at w
  = (Ok tt,
     write_file (_get_cache_file b)
       (Json {| d_base := Some bs;
                d_rates := Some r;
                d_date := Some (default (date_str (clock w (ticks w)))
                                        (d_date rates));
                d_expires_at := Some (isoformat expires_at) |})
       (record_event (FsOpenWrite (_get_cache_file b)) (tick w))).
Proof. intros B R F. run_method. known B. known R. now known F. Qed.

Lemma save_open_fails b rates bs r expires_at e w :
  d_base rates = Some bs ->
  d_rates rates = Some r ->
  write_fault w (_get_cache_file b) = Some (OpenFails e) ->
  save b rates expires_at w
  = (Raise e, record_event (FsOpenWrite (_get_cache_file b)) (tick w)).
Proof. intros B R F. run_method. known B. known R. now known F. Qed.

Lemma save_dump_fails b rates bs r expires_at e leftover w :
  d_base rates = Some bs ->
  d_rates rates = Some r ->
  write_fault w (_get_cache_file b) = Some (DumpFails e leftover) ->
  save b rates expires_at w
  = (Raise e,
     write_file (_get_cache_file b)
       (left_behind leftover
          {| d_base := Some bs;
             d_rates := Some r;
             d_date := Some (default (date_str (clock w (ticks w)))
                                     (d_date rates));
             d_expires_at := Some (isoformat expires_at) |})
       (record_event (FsOpenWrite (_get_cache_file b)) (tick w))).
Proof. intros B R F. run_method. known B. known R. now known F. Qed.

Lemma save_no_base b rates expires_at w :
  d_base rates = None ->
  save b rates expires_at w = (Raise (Exception KeyError "'base'"), w).
Proof. intros B. run_method. now known B. Qed.

Lemma save_no_rates b rates bs expires_at w :
  d_base rates = Some bs ->
  d_rates rates = None ->
  save b rates expires_at w = (Raise (Exception KeyError "'rates'"), w).
Proof. intros B R. run_method. known B. now known R. Qed.

(** *** The fetch of fresh rates *)

Lemma api_get_rates_run b w :
  api_get_rates api_client b w
  = (get_rates api_client (fetch_count (trace w)) b,
     record_event (ApiGetRates b) w).
Proof. reflexivity. Qed.

Lemma fetch_fresh_ok b d bs r expiry w :
  get_rates api_client (fetch_count (trace w)) b = Ok d ->
  plus_seconds (clock w (ticks w)) (cache_timeout api_client) = Ok expiry ->
  d_base d = Some bs ->
  d_rates d = Some r ->
  write_fault w (_get_cache_file b) = None ->
  fetch_fresh b w
  = (Ok d,
     write_file (_get_cache_file b)
       (Json {| d_base := Some bs;
                d_rates := Some r;
                d_date := Some (default (date_str (clock w (S (ticks w))))
                                        (d_date d));
                d_expires_at := Some (isoformat expiry) |})
       (record_event (FsOpenWrite (_get_cache_file b)) (tick (fetched b w)))).
Proof.
  intros G E B R F. unfold fetch_fresh_rates.
  apply try_except_ok.
  erewrite bind_ok; [|reflexivity].
  erewrite bind_ok; [|rewrite api_get_rates_run, fetch_count_record; cbn;
                      rewrite G; reflexivity].
  erewrite bind_ok; [|reflexivity].
  erewrite bind_ok; [|unfold datetime_plus_seconds; cbn; rewrite E;
                      reflexivity].
  erewrite bind_ok; [|apply (save_ok b d bs r); [exact B|exact R|exact F]].
  reflexivity.
Qed.

Lemma fetch_fresh_fetch_raises b e w :
  get_rates api_client (fetch_count (trace w)) b = Raise e ->
  fetch_fresh b w
  = (Raise (Exception APIError ("Could not fetch exchange rates: " +:+ exn_str e)),
     record_event (LogError ("Failed to fetch rates: " +:+ exn_str e))
       (record_event (ApiGetRates b)
          (record_event (LogInfo ("Fetching fresh rates for " +:+ b)) w))).
Proof.
  intros G. unfold fetch_fresh_rates.
  erewrite try_except_raise; [reflexivity|].
  erewrite bind_ok; [|reflexivity].
  apply bind_raise.
  rewrite api_get_rates_run, fetch_count_record. cbn. now rewrite G.
Qed.

Lemma fetch_fresh_overflow b d e w :
  get_rates api_client (fetch_count (trace w)) b = Ok d ->
  plus_seconds (clock w (ticks w)) (cache_timeout api_client) = Raise e ->
  fetch_fresh b w
  = (Raise (Exception APIError ("Could not fetch exchange rates: " +:+ exn_str e)),
     record_event (LogError ("Failed to fetch rates: " +:+ exn_str e))
       (fetched b w)).
Proof.
  intros G E. unfold fetch_fresh_rates.
  erewrite try_except_raise; [reflexivity|].
  erewrite bind_ok; [|reflexivity].
  erewrite bind_ok; [|rewrite api_get_rates_run, fetch_count_record; cbn;
                      rewrite G; reflexivity].
  erewrite bind_ok; [|reflexivity].
  apply bind_raise. unfold datetime_plus_seconds. cbn. now rewrite E.
Qed.

Lemma fetch_fresh_store_raises b d expiry e w w' :
  get_rates api_client (fetch_count (trace w)) b = Ok d ->
  plus_seconds (clock w (ticks w)) (cache_timeout api_client) = Ok expiry ->
  save b d expiry (fetched b w) = (Raise e, w') ->
  fetch_fresh b w
  = (Raise (Exception APIError ("Could not fetch exchange rates: " +:+ exn_str e)),
     record_event (LogError ("Failed to fetch rates: " +:+ exn_str e)) w').
Proof.
  intros G E Hs. unfold fetch_fresh_rates.
  erewrite try_except_raise; [reflexivity|].
  erewrite bind_ok; [|reflexivity].
  erewrite bind_ok; [|rewrite api_get_rates_run, fetch_count_record; cbn;
                      rewrite G; reflexivity].
  erewrite bind_ok; [|reflexivity].
  erewrite bind_ok; [|unfold datetime_plus_seconds; cbn; rewrite E;
                      reflexivity].
  apply bind_raise. exact Hs.
Qed.

(** Every outcome of the fetch of fresh rates: an [APIError], logged, in
    one of the worlds above, or the provider's answer with an entry filed
    that has the base and the rates of the answer. *)
Lemma fetch_fresh_outcome b w :
  (exists e w',
     fetch_fresh b w
     = (Raise (Exception APIError
                 ("Could not fetch exchange rates: " +:+ exn_str e)),
        record_event (LogError ("Failed to fetch rates: " +:+ exn_str e)) w')
     /\ failed_fetch (get_rates api_client (fetch_count (trace w)) b) b w w')
  \/ (exists d data expiry,
        fetch_fresh b w
        = (Ok d,
           write_file (_get_cache_file b) (Json data)
             (record_event (FsOpenWrite (_get_cache_file b))
                (tick (fetched b w))))
        /\ get_rates api_client (fetch_count (trace w)) b = Ok d
        /\ d_base data = d_base d
        /\ d_rates data = d_rates d
        /\ d_expires_at data = Some (isoformat expiry)).
Proof.
  unfold failed_fetch.
  destruct (get_rates api_client (fetch_count (trace w)) b) as [d|e] eqn:G;
    [|left; eexists _, _; split;
      [apply (fetch_fresh_fetch_raises _ _ _ G)|now left]].
  destruct (plus_seconds (clock w (ticks w)) (cache_timeout api_client))
    as [expiry|e] eqn:E;
    [|left; eexists _, _; split;
      [apply (fetch_fresh_overflow _ _ _ _ G E)|now right; left]].
  destruct (d_base d) as [bs|] eqn:B;
    [|left; eexists _, _; split;
      [apply (fetch_fresh_store_raises _ _ _ _ _ _ G E
                (save_no_base b d expiry (fetched b w) B))
      |now right; left]].
  destruct (d_rates d) as [r|] eqn:R;
    [|left; eexists _, _; split;
      [apply (fetch_fresh_store_raises _ _ _ _ _ _ G E
                (save_no_rates b d bs expiry (fetched b w) B R))
      |now right; left]].
  destruct (write_fault w (_get_cache_file b)) as [[e|e leftover]|] eqn:F.
  - left. eexists _, _. split.
    + apply (fetch_fresh_store_raises _ _ _ _ _ _ G E
               (save_open_fails b d bs r expiry e (fetched b w) B R F)).
    + now right; right; left.
  - left. eexists _, _. split.
    + apply (fetch_fresh_store_raises _ _ _ _ _ _ G E
               (save_dump_fails b d bs r expiry e leftover (fetched b w)
                  B R F)).
    + right; right; right. eexists leftover, d, _.
      split; [reflexivity|]. split; [|split; [|reflexivity]]; cbn; congruence.
  - right. eexists _, _, _. split.
    + apply (fetch_fresh_ok _ _ _ _ _ _ G E B R F).
    + rewrite B, R. now repeat split.
Qed.

(** What a failed fetch leaves of the world it started in. *)
Lemma failed_fetch_frame answer b w w' :
  failed_fetch answer b w w' ->
  (forall p, p <> _get_cache_file b -> files w' !! p = files w !! p)
  /\ (forall p data,
        files w' !! p = Some (Json data) ->
        files w !! p = Some (Json data)
        \/ (p = _get_cache_file b
            /\ exists d,
                 answer = Ok d
                 /\ d_base data = d_base d
                 /\ d_rates data = d_rates d))
  /\ write_fault w' = write_fault w
  /\ clock w' = clock w
  /\ (ticks w <= ticks w')%nat
  /\ fetch_count (trace w') = S (fetch_count (trace w)).
Proof.
  assert (Hfc : fetch_count (trace (fetched b w)) = S (fetch_count (trace w))).
  { unfold fetched. now rewrite fetch_count_tick, !fetch_count_record. }
  intros [->|[->|[->|(leftover & d & data & G & B & R & ->)]]].
  - split; [easy|]. split; [intros p data H; now left|].
    repeat split; try easy; try (cbn; lia);
      try (now rewrite !fetch_count_record).
  - split; [easy|]. split; [intros p data H; now left|].
    repeat split; try easy; try (cbn; lia).
  - split; [easy|]. split; [intros p data H; now left|].
    repeat split; try easy; try (cbn; lia);
      try (now rewrite fetch_count_record).
  - split; [|split; [|split; [|split; [|split]]]];
      try reflexivity; try (cbn; lia).
    + intros p Hp. cbn. now apply lookup_insert_ne.
    + intros p data'. cbn.
      destruct (decide (_get_cache_file b = p)) as [<-|Hne].
      * rewrite lookup_insert_eq. destruct leftover as [x|]; [easy|].
        cbn. intros [= <-]. right. split; [reflexivity|]. now exists d.
      * rewrite lookup_insert_ne by exact Hne. now left.
    + cbn [write_file trace]. now rewrite fetch_count_record.
Qed.

(** *** [get_exchange_rates] *)

Lemma get_rates_load_raises base e w w' :
  load (upper base) w = (Raise e, w') ->
  get_rates_of base w = (Raise e, w').
Proof. intros H. unfold get_exchange_rates. now rewrite (bind_raise _ _ _ _ _ H). Qed.

Lemma get_rates_miss base w w' :
  load (upper base) w = (Ok None, w') ->
  get_rates_of base w = fetch_fresh (upper base) w'.
Proof. intros H. unfold get_exchange_rates. now rewrite (bind_ok _ _ _ _ _ H). Qed.

Lemma get_rates_hit base d w w' :
  load (upper base) w = (Ok (Some d), w') ->
  dict_truthy d = true ->
  get_rates_of base w
  = (Ok d, record_event (LogInfo ("Using cached rates for " +:+ upper base)) w').
Proof.
  intros H T. unfold get_exchange_rates. rewrite (bind_ok _ _ _ _ _ H).
  now rewrite T.
Qed.

Lemma expiring_dict_truthy d s : d_expires_at d = Some s -> dict_truthy d = true.
Proof.
  unfold dict_truthy. intros ->.
  now destruct (d_base d), (d_rates d), (d_date d).
Qed.

Lemma get_rates_upper base : get_rates_of (upper base) = get_rates_of base.
Proof. unfold get_exchange_rates. now rewrite upper_idempotent. Qed.

Lemma looked_up_upper base w : looked_up (upper base) w = looked_up base w.
Proof. unfold looked_up. now rewrite get_cache_file_upper. Qed.

Lemma opened_upper base w : opened (upper base) w = opened base w.
Proof. unfold opened. now rewrite get_cache_file_upper, looked_up_upper. Qed.


(** *** [convert] *)

Lemma convert_parsed amount a f t date w :
  parse_amount float_of_str amount = Some a ->
  convert_ amount f t date w
  = (if decide (upper f = upper t) then ret a
     else
       let! rates := get_rates_of (upper f) in
       let! table := getitem "rates" (d_rates rates) in
       match table !! upper t with
       | None =>
           raise (Exception InvalidCurrencyError
                    ("Currency " +:+ upper t +:+ " not found in rates"))
       | Some rate => ret (PrimFloat.mul a rate)
       end) w.
Proof.
  intros H. unfold convert.
  erewrite bind_ok; [reflexivity|].
  apply try_except_ok, float_of_parsed, H.
Qed.

Lemma convert_same_code amount a f t date w :
  parse_amount float_of_str amount = Some a ->
  upper f = upper t ->
  convert_ amount f t date w = (Ok a, w).
Proof.
  intros H E. rewrite (convert_parsed _ _ _ _ _ _ H).
  now destruct (decide (upper f = upper t)).
Qed.

(** C1: converting a parseable amount from a currency to itself returns the
    parsed amount itself, not a product, and leaves the world untouched: its
    trace gains no cache access and no provider fetch. *)
Theorem convert_identity amount a c date w :
  parse_amount float_of_str amount = Some a ->
  convert_ amount c c date w = (Ok a, w)
  /\ cache_access_count (trace (snd (convert_ amount c c date w)))
     = cache_access_count (trace w)
  /\ fetch_count (trace (snd (convert_ amount c c date w)))
     = fetch_count (trace w).
Proof.
  intros H.
  assert (E : convert_ amount c c date w = (Ok a, w))
    by now apply convert_same_code.
  now rewrite E.
Qed.

(** C6: an amount that does not parse as a float makes [convert] raise
    [ValueError("Amount must be a number")], an exception of another class
    than those of a failed fetch and of an unknown currency, in a world left
    untouched: no cache access and no provider fetch has happened. *)
Theorem convert_invalid_amount amount f t date w :
  parse_amount float_of_str amount = None ->
  convert_ amount f t date w
  = (Raise (Exception ValueError "Amount must be a number"), w)
  /\ cache_access_count (trace (snd (convert_ amount f t date w)))
     = cache_access_count (trace w)
  /\ fetch_count (trace (snd (convert_ amount f t date w)))
     = fetch_count (trace w)
  /\ ValueError <> APIError
  /\ ValueError <> InvalidCurrencyError.
Proof.
  intros H.
  assert (E : convert_ amount f t date w
              = (Raise (Exception ValueError "Amount must be a number"), w)).
  { destruct (float_of_unparsed _ w H) as (e & He & Hr).
    unfold convert. apply bind_raise.
    rewrite (try_except_raise _ _ _ _ _ Hr). now rewrite He. }
  rewrite E. repeat split; discriminate.
Qed.

(** C9: [convert] does not depend on its [date] argument: run in the same
    world with any two dates, given or not, it returns the same result and
    leaves the same world, with the same cache accesses and provider fetches
    in its trace. *)
Theorem convert_ignores_date amount f t (date1 date2 : option string) w :
  convert float_of_str isoformat fromisoformat date_str api_client
    amount f t date1 w
  = convert float_of_str isoformat fromisoformat date_str api_client
      amount f t date2 w.
Proof. unfold convert. reflexivity. Qed.


(** C5, as the code has it: a missing entry is treated as absent, and the
    caller goes on to fetch fresh rates; an entry that cannot be read, has
    no expiry or has an expiry that is not an ISO date makes [load] raise,
    and [get_exchange_rates] lets that exception through, without a provider
    fetch. *)
Theorem load_missing_absent_malformed_raises base w :
  (files w !! _get_cache_file base = None ->
     fst (load base w) = Ok None
     /\ get_rates_of base w = fetch_fresh (upper base) (looked_up base w))
  /\ (forall e, files w !! _get_cache_file base = Some (Unreadable e) ->
        fst (load base w) = Raise e
        /\ fst (get_rates_of base w) = Raise e
        /\ fetch_count (trace (snd (get_rates_of base w))) = fetch_count (trace w))
  /\ (forall d, files w !! _get_cache_file base = Some (Json d) ->
        d_expires_at d = None ->
        fst (load base w) = Raise (Exception KeyError "'expires_at'")
        /\ fst (get_rates_of base w) = Raise (Exception KeyError "'expires_at'")
        /\ fetch_count (trace (snd (get_rates_of base w))) = fetch_count (trace w))
  /\ (forall d s, files w !! _get_cache_file base = Some (Json d) ->
        d_expires_at d = Some s ->
        fromisoformat s = None ->
        let e := Exception ValueError
                   ("Invalid isoformat string: '" +:+ s +:+ "'") in
        fst (load base w) = Raise e
        /\ fst (get_rates_of base w) = Raise e
        /\ fetch_count (trace (snd (get_rates_of base w))) = fetch_count (trace w)).
Proof.
  assert (Hn : forall e w',
             load (upper base) w = (Raise e, w') ->
             fst (get_rates_of base w) = Raise e
             /\ fetch_count (trace (snd (get_rates_of base w)))
                = fetch_count (trace w)).
  { intros e w' L. rewrite (get_rates_load_raises _ _ _ _ L). split; [easy|].
    destruct (load_preserves (upper base) w) as (_ & _ & _ & Hn).
    now rewrite L in Hn. }
  split; [|split; [|split]].
  - intros H. split; [now rewrite (load_missing _ _ H)|].
    rewrite <- get_cache_file_upper in H.
    now rewrite (get_rates_miss _ _ _ (load_missing _ _ H)), looked_up_upper.
  - intros e H. split; [now rewrite (load_unreadable _ _ _ H)|].
    rewrite <- get_cache_file_upper in H.
    apply (Hn _ _ (load_unreadable _ _ _ H)).
  - intros d H E. split; [now rewrite (load_no_expiry _ _ _ H E)|].
    rewrite <- get_cache_file_upper in H.
    apply (Hn _ _ (load_no_expiry _ _ _ H E)).
  - intros d s H E F e. split; [now rewrite (load_bad_expiry _ _ _ _ H E F)|].
    rewrite <- get_cache_file_upper in H.
    apply (Hn _ _ (load_bad_expiry _ _ _ _ H E F)).
Qed.

(** C7: for a parseable amount and two codes that differ once uppercased,
    when the rates obtained for the source currency do not list the
    uppercased target, [convert] raises [InvalidCurrencyError] with a message
    that names that code, and returns no number; when they list it, [convert]
    returns the product of the amount and the listed rate, as the float
    multiplication gives it. *)
Theorem convert_unknown_or_product amount a f t date d table w w' :
  parse_amount float_of_str amount = Some a ->
  upper f <> upper t ->
  get_rates_of f w = (Ok d, w') ->
  d_rates d = Some table ->
  (table !! upper t = None ->
     exists msg,
       convert_ amount f t date w
       = (Raise (Exception InvalidCurrencyError msg), w')
       /\ infix (upper t) msg)
  /\ (forall rate,
        table !! upper t = Some rate ->
        convert_ amount f t date w = (Ok (PrimFloat.mul a rate), w')).
Proof.
  intros Ha Hne G R.
  assert (Hc : convert_ amount f t date w
               = match table !! upper t with
                 | None =>
                     (Raise (Exception InvalidCurrencyError
                               ("Currency " +:+ upper t +:+ " not found in rates")),
                      w')
                 | Some rate => (Ok (PrimFloat.mul a rate), w')
                 end).
  { rewrite (convert_parsed _ _ _ _ _ _ Ha).
    destruct (decide (upper f = upper t)) as [E|_]; [contradiction|].
    rewrite <- get_rates_upper in G.
    rewrite (bind_ok _ _ _ _ _ G), R. cbn.
    now destruct (table !! upper t). }
  split.
  - intros Hnone. rewrite Hc, Hnone. eexists. split; [reflexivity|].
    apply infix_middle.
  - intros rate Hsome. now rewrite Hc, Hsome.
Qed.

(** C8: saving a snapshot with a base, rates and a date under its base
    currency and loading that currency right after, while the clock reads
    less than the snapshot's expiry, returns an entry with the same base,
    rates and date. *)
Theorem store_load_round_trip s b r dt expires_at w :
  d_base s = Some b ->
  d_rates s = Some r ->
  d_date s = Some dt ->
  write_fault w (_get_cache_file b) = None ->
  clock w (S (ticks w)) < expires_at ->
  exists data w',
    (do! save b s expires_at in load b) w = (Ok (Some data), w')
    /\ d_base data = Some b
    /\ d_rates data = Some r
    /\ d_date data = Some dt.
Proof.
  intros B R D F Hlt.
  eexists _, _. split; [|split; [|split]].
  - rewrite (bind_ok _ _ _ _ _ (save_ok _ _ _ _ expires_at _ B R F)).
    erewrite load_entry.
    + apply Z.ltb_lt in Hlt. cbn. now rewrite Hlt.
    + cbn. apply lookup_insert_eq.
    + reflexivity.
    + apply fromisoformat_isoformat.
  - reflexivity.
  - reflexivity.
  - cbn. now rewrite D.
Qed.

(** X11: a snapshot without a date is filed, and comes back, with the date
    that the clock shows when it is saved. *)
Lemma store_load_default_date s b r expires_at w :
  d_base s = Some b ->
  d_rates s = Some r ->
  d_date s = None ->
  write_fault w (_get_cache_file b) = None ->
  clock w (S (ticks w)) < expires_at ->
  exists data w',
    (do! save b s expires_at in load b) w = (Ok (Some data), w')
    /\ d_date data = Some (date_str (clock w (ticks w))).
Proof.
  intros B R D F Hlt.
  eexists _, _. split.
  - rewrite (bind_ok _ _ _ _ _ (save_ok _ _ _ _ expires_at _ B R F)).
    erewrite load_entry.
    + apply Z.ltb_lt in Hlt. cbn. now rewrite Hlt.
    + cbn. apply lookup_insert_eq.
    + reflexivity.
    + apply fromisoformat_isoformat.
  - cbn. now rewrite D.
Qed.


(** Codes that differ can name the same file: a leading ["./"] is dropped
    from the path. *)
Lemma get_cache_file_dot_slash :
  _get_cache_file "./usd" = _get_cache_file "usd".
Proof. reflexivity. Qed.

(** *** The invariant of stored snapshots *)

Lemma snapshot_invariant_fields d d' :
  d_base d' = d_base d ->
  d_rates d' = d_rates d ->
  snapshot_invariant d ->
  snapshot_invariant d'.
Proof. unfold snapshot_invariant. now intros -> ->. Qed.

Lemma cache_invariant_files w w' :
  files w' = files w -> cache_invariant w -> cache_invariant w'.
Proof. unfold cache_invariant. now intros ->. Qed.

Lemma cache_invariant_entries w w' :
  (forall p d, files w' !! p = Some (Json d) -> files w !! p = Some (Json d)) ->
  cache_invariant w ->
  cache_invariant w'.
Proof. intros H Hw p d Hp. exact (Hw p d (H p d Hp)). Qed.

Lemma cache_invariant_write path d w w' :
  files w' = files w ->
  snapshot_invariant d ->
  cache_invariant w ->
  cache_invariant (write_file path (Json d) w').
Proof.
  intros Hf Hd Hw p d'. cbn. rewrite Hf.
  destruct (decide (path = p)) as [<-|Hne].
  - rewrite lookup_insert_eq. now intros [= <-].
  - rewrite lookup_insert_ne by exact Hne. apply Hw.
Qed.

Lemma save_ok_entry b rates expires_at w w' :
  save b rates expires_at w = (Ok tt, w') ->
  exists data,
    files w' !! _get_cache_file b = Some (Json data)
    /\ d_base data = d_base rates
    /\ d_rates data = d_rates rates.
Proof.
  intros Hok.
  destruct (d_base rates) as [bs|] eqn:B;
    [|now rewrite (save_no_base _ _ _ _ B) in Hok].
  destruct (d_rates rates) as [r|] eqn:R;
    [|now rewrite (save_no_rates _ _ _ _ _ B R) in Hok].
  destruct (write_fault w (_get_cache_file b)) as [[e|e leftover]|] eqn:F.
  - now rewrite (save_open_fails _ _ _ _ _ _ _ B R F) in Hok.
  - now rewrite (save_dump_fails _ _ _ _ _ _ _ _ B R F) in Hok.
  - rewrite (save_ok _ _ _ _ _ _ B R F) in Hok. injection Hok as <-.
    eexists. split; [cbn; apply lookup_insert_eq|]. now split.
Qed.

(** The entries that the fetch of fresh rates leaves in the cache are those
    that were there and the one it files, with the base and the rates of
    the provider's answer. *)
Lemma fetch_fresh_entries b w p data :
  files (snd (fetch_fresh b w)) !! p = Some (Json data) ->
  files w !! p = Some (Json data)
  \/ (p = _get_cache_file b
      /\ exists d,
           get_rates api_client (fetch_count (trace w)) b = Ok d
           /\ d_base data = d_base d
           /\ d_rates data = d_rates d).
Proof.
  destruct (fetch_fresh_outcome b w)
    as [(e & w' & -> & Hfail)|(d & data' & expiry & -> & G & B & R & _)];
    cbn [snd].
  - destruct (failed_fetch_frame _ _ _ _ Hfail) as (_ & Hj & _).
    intros H. exact (Hj _ _ H).
  - cbn. destruct (decide (_get_cache_file b = p)) as [<-|Hne].
    + rewrite lookup_insert_eq. intros [= <-]. right.
      split; [reflexivity|]. now exists d.
    + rewrite lookup_insert_ne by exact Hne. now left.
Qed.

Lemma fetch_fresh_preserves_invariant b w :
  (forall d, get_rates api_client (fetch_count (trace w)) b = Ok d ->
             snapshot_invariant d) ->
  cache_invariant w ->
  cache_invariant (snd (fetch_fresh b w)).
Proof.
  intros Hp Hw p data H.
  destruct (fetch_fresh_entries _ _ _ _ H) as [H0|(_ & d & G & B & R)].
  - exact (Hw _ _ H0).
  - apply (snapshot_invariant_fields d); [exact B|exact R|]. now apply Hp.
Qed.

Lemma fetch_fresh_ok_filed b d w w' :
  fetch_fresh b w = (Ok d, w') ->
  exists data expiry,
    files w' !! _get_cache_file b = Some (Json data)
    /\ d_base data = d_base d
    /\ d_rates data = d_rates d
    /\ d_expires_at data = Some (isoformat expiry).
Proof.
  intros Hok.
  destruct (fetch_fresh_outcome b w)
    as [(e & w1 & H & _)|(d' & data & expiry & H & _ & B & R & Ex)];
    rewrite H in Hok; [discriminate|].
  injection Hok as <- <-. exists data, expiry.
  split; [cbn; apply lookup_insert_eq|]. now repeat split.
Qed.

Lemma get_rates_ok_filed X d w w' :
  get_rates_of X w = (Ok d, w') ->
  exists data,
    files w' !! _get_cache_file X = Some (Json data)
    /\ d_base data = d_base d
    /\ d_rates data = d_rates d.
Proof.
  intros Hok. rewrite <- (get_cache_file_upper X).
  destruct (load (upper X) w) as [[[data|]|e] w0] eqn:L.
  - destruct (load_some_entry _ _ _ _ L) as (Hfile & s & t & E & F).
    rewrite (get_rates_hit _ _ _ _ L (expiring_dict_truthy _ _ E)) in Hok.
    injection Hok as <- <-. now exists data.
  - rewrite (get_rates_miss _ _ _ L) in Hok.
    destruct (fetch_fresh_ok_filed _ _ _ _ Hok)
      as (data & expiry & H & B & R & _).
    exists data. split; [exact H|]. split; [exact B|exact R].
  - now rewrite (get_rates_load_raises _ _ _ _ L) in Hok.
Qed.

(** C10, as the code has it: the keys of the rates of every stored snapshot
    are unique, and [get_exchange_rates] and [_save_rates_to_cache] file the
    base and the rates they are given as they are: the rates returned are
    in the file of the currency with their base, an entry that was not
    there before has the base and the rates of the provider's answer, and a
    save that returns has filed the base and the rates of its snapshot.
    So, when the entries of the cache and the provider's answer have
    uppercase keys that exclude their base, so have the entries of the
    cache afterwards; the code does nothing to make it so. *)
Theorem stored_snapshot_follows_provider X w :
  cache_invariant w ->
  (forall d, get_rates api_client (fetch_count (trace w)) (upper X) = Ok d ->
             snapshot_invariant d) ->
  cache_invariant (snd (get_rates_of X w))
  /\ (forall path d r,
        files (snd (get_rates_of X w)) !! path = Some (Json d) ->
        d_rates d = Some r ->
        NoDup (map fst (map_to_list r)))
  /\ (forall d w',
        get_rates_of X w = (Ok d, w') ->
        exists data,
          files w' !! _get_cache_file X = Some (Json data)
          /\ d_base data = d_base d
          /\ d_rates data = d_rates d)
  /\ (forall path data,
        files (snd (get_rates_of X w)) !! path = Some (Json data) ->
        files w !! path = Some (Json data)
        \/ (path = _get_cache_file X
            /\ exists d,
                 get_rates api_client (fetch_count (trace w)) (upper X) = Ok d
                 /\ d_base data = d_base d
                 /\ d_rates data = d_rates d))
  /\ (forall b rates expires_at w0 w',
        _save_rates_to_cache isoformat date_str b rates expires_at w0
        = (Ok tt, w') ->
        exists data,
          files w' !! _get_cache_file b = Some (Json data)
          /\ d_base data = d_base rates
          /\ d_rates data = d_rates rates).
Proof.
  intros Hw Hp.
  destruct (load_preserves (upper X) w) as (Hf & _ & _ & Hn).
  assert (Hfresh : forall w0,
             files w0 = files w ->
             fetch_count (trace w0) = fetch_count (trace w) ->
             snd (get_rates_of X w) = snd (fetch_fresh (upper X) w0) ->
             cache_invariant (snd (get_rates_of X w))
             /\ forall path data,
                  files (snd (get_rates_of X w)) !! path = Some (Json data) ->
                  files w !! path = Some (Json data)
                  \/ (path = _get_cache_file X
                      /\ exists d,
                           get_rates api_client (fetch_count (trace w))
                             (upper X) = Ok d
                           /\ d_base data = d_base d
                           /\ d_rates data = d_rates d)).
  { intros w0 Hf0 Hn0 ->. split.
    - apply fetch_fresh_preserves_invariant.
      + now rewrite Hn0.
      + now apply (cache_invariant_files w).
    - intros path data H.
      destruct (fetch_fresh_entries _ _ _ _ H) as [H0|(-> & d & G & B & R)].
      + left. now rewrite <- Hf0.
      + right. rewrite get_cache_file_upper. split; [reflexivity|].
        exists d. now rewrite <- Hn0. }
  assert (Hsame : files (snd (get_rates_of X w)) = files w ->
             cache_invariant (snd (get_rates_of X w))
             /\ forall path data,
                  files (snd (get_rates_of X w)) !! path = Some (Json data) ->
                  files w !! path = Some (Json data)
                  \/ (path = _get_cache_file X
                      /\ exists d,
                           get_rates api_client (fetch_count (trace w))
                             (upper X) = Ok d
                           /\ d_base data = d_base d
                           /\ d_rates data = d_rates d)).
  { intros E. split.
    - now apply (cache_invariant_files w).
    - intros path data H. left. now rewrite <- E. }
  assert (Hmain : cache_invariant (snd (get_rates_of X w))
             /\ forall path data,
                  files (snd (get_rates_of X w)) !! path = Some (Json data) ->
                  files w !! path = Some (Json data)
                  \/ (path = _get_cache_file X
                      /\ exists d,
                           get_rates api_client (fetch_count (trace w))
                             (upper X) = Ok d
                           /\ d_base data = d_base d
                           /\ d_rates data = d_rates d)).
  { destruct (load (upper X) w) as [[[data|]|e] w0] eqn:L; cbn [snd] in Hf, Hn.
    - destruct (dict_truthy data) eqn:T.
      + apply Hsame. now rewrite (get_rates_hit _ _ _ _ L T).
      + apply (Hfresh w0 Hf Hn). unfold get_exchange_rates.
        rewrite (bind_ok _ _ _ _ _ L). now rewrite T.
      - apply (Hfresh w0 Hf Hn). now rewrite (get_rates_miss _ _ _ L).
      - apply Hsame. now rewrite (get_rates_load_raises _ _ _ _ L). }
  destruct Hmain as (Hinv & Hentries).
  split; [exact Hinv|].
  split; [intros path d r _ _; apply NoDup_fst_map_to_list|].
  split; [intros d w'; apply get_rates_ok_filed|].
  split; [exact Hentries|].
  intros b rates expires_at w0 w'. apply save_ok_entry.
Qed.

(** ** Further properties of the converter *)

Abbreviation supported :=
  (get_supported_currencies isoformat fromisoformat date_str api_client).

(** *** Hits, misses and failures of [get_exchange_rates] *)

(** X1: while the entry of a currency is fresh, [get_exchange_rates] returns
    it after looking at and opening its file only: the provider is not
    asked, whatever it would answer, and no file is written. *)
Theorem cache_hit_contacts_no_provider X d s expires_at w :
  files w !! _get_cache_file X = Some (Json d) ->
  d_expires_at d = Some s ->
  fromisoformat s = Some expires_at ->
  clock w (ticks w) < expires_at ->
  fst (get_rates_of X w) = Ok d
  /\ files (snd (get_rates_of X w)) = files w
  /\ trace (snd (get_rates_of X w))
     = trace w ++ [FsExists (_get_cache_file X);
                   FsOpenRead (_get_cache_file X);
                   LogInfo ("Using cached rates for " +:+ upper X)]
  /\ fetch_count (trace (snd (get_rates_of X w))) = fetch_count (trace w).
Proof.
  intros H E F Hlt.
  assert (L : load (upper X) w = (Ok (Some d), tick (opened X w))).
  { rewrite <- get_cache_file_upper in H.
    rewrite (load_entry _ _ _ _ _ H E F), opened_upper.
    apply Z.ltb_lt in Hlt. now rewrite Hlt. }
  rewrite (get_rates_hit _ _ _ _ L (expiring_dict_truthy _ _ E)).
  cbn [fst snd]. repeat split.
  - cbn. now rewrite <- !app_assoc.
  - rewrite fetch_count_record. cbn [is_fetch]. rewrite fetch_count_tick.
    unfold opened, looked_up. now rewrite !fetch_count_record.
Qed.


(** X3: when the cache has nothing fresh and the provider raises,
    [get_exchange_rates] raises [APIError] with the provider's description;
    after the look into the cache it does three things and no more: it logs
    that it fetches, asks the provider once, and logs the error once; the
    files of the cache, a stale entry included, stay as they were. *)
Theorem provider_failure_keeps_cache X e w :
  fst (load (upper X) w) = Ok None ->
  get_rates api_client (fetch_count (trace w)) (upper X) = Raise e ->
  fst (get_rates_of X w)
  = Raise (Exception APIError ("Could not fetch exchange rates: " +:+ exn_str e))
  /\ files (snd (get_rates_of X w)) = files w
  /\ fetch_count (trace (snd (get_rates_of X w))) = S (fetch_count (trace w))
  /\ trace (snd (get_rates_of X w))
     = trace (snd (load (upper X) w))
       ++ [LogInfo ("Fetching fresh rates for " +:+ upper X);
           ApiGetRates (upper X);
           LogError ("Failed to fetch rates: " +:+ exn_str e)].
Proof.
  intros Hmiss G.
  destruct (load (upper X) w) as [res w0] eqn:L. cbn in Hmiss. subst res.
  destruct (load_preserves (upper X) w) as (Hf & _ & _ & Hn).
  rewrite L in Hf, Hn. cbn [snd] in Hf, Hn |- *.
  rewrite (get_rates_miss _ _ _ L).
  rewrite <- Hn in G. rewrite (fetch_fresh_fetch_raises _ _ _ G).
  cbn [fst snd]. repeat split.
  - exact Hf.
  - rewrite !fetch_count_record. cbn [is_fetch]. now rewrite Hn.
  - cbn. now rewrite <- !app_assoc.
Qed.


(** *** What a call may change *)

Lemma load_ticks base w : (ticks w <= ticks (snd (load base w)))%nat.
Proof.
  destruct (files w !! _get_cache_file base) as [[e|d]|] eqn:H.
  - rewrite (load_unreadable _ _ _ H). cbn. lia.
  - destruct (d_expires_at d) as [s|] eqn:E.
    + destruct (fromisoformat s) as [t|] eqn:F.
      * rewrite (load_entry _ _ _ _ _ H E F). cbn. lia.
      * rewrite (load_bad_expiry _ _ _ _ H E F). cbn. lia.
    + rewrite (load_no_expiry _ _ _ H E). cbn. lia.
  - rewrite (load_missing _ _ H). cbn. lia.
Qed.

Lemma fetch_fresh_frame b w :
  (forall p, p <> _get_cache_file b ->
             files (snd (fetch_fresh b w)) !! p = files w !! p)
  /\ write_fault (snd (fetch_fresh b w)) = write_fault w
  /\ clock (snd (fetch_fresh b w)) = clock w
  /\ (ticks w <= ticks (snd (fetch_fresh b w)))%nat
  /\ fetch_count (trace (snd (fetch_fresh b w))) = S (fetch_count (trace w)).
Proof.
  assert (Hfc : fetch_count (trace (fetched b w)) = S (fetch_count (trace w))).
  { unfold fetched. now rewrite fetch_count_tick, !fetch_count_record. }
  destruct (fetch_fresh_outcome b w)
    as [(e & w' & -> & Hfail)|(d & data & expiry & -> & _)]; cbn [snd].
  - destruct (failed_fetch_frame _ _ _ _ Hfail)
      as (Hp & _ & Hw & Hc & Ht & Hn).
    rewrite fetch_count_record. cbn [is_fetch].
    split; [exact Hp|]. split; [exact Hw|]. split; [exact Hc|].
    split; [exact Ht|exact Hn].
  - split; [|split; [|split; [|split]]]; try reflexivity.
    + intros p Hp. cbn. now apply lookup_insert_ne.
    + cbn. lia.
    + cbn [write_file trace]. now rewrite fetch_count_record.
Qed.

Lemma get_rates_frame X w :
  (forall p, p <> _get_cache_file X ->
             files (snd (get_rates_of X w)) !! p = files w !! p)
  /\ write_fault (snd (get_rates_of X w)) = write_fault w
  /\ clock (snd (get_rates_of X w)) = clock w
  /\ (ticks w <= ticks (snd (get_rates_of X w)))%nat
  /\ (fetch_count (trace w) <= fetch_count (trace (snd (get_rates_of X w)))
      <= S (fetch_count (trace w)))%nat.
Proof.
  destruct (load_preserves (upper X) w) as (Hf & Hw & Hc & Hn).
  pose proof (load_ticks (upper X) w) as Ht.
  assert (Hmiss : forall w0,
             load (upper X) w = (Ok None, w0)
             \/ (exists data, load (upper X) w = (Ok (Some data), w0)
                              /\ dict_truthy data = false) ->
             snd (get_rates_of X w) = snd (fetch_fresh (upper X) w0)).
  { intros w0 [L|(data & L & T)]; unfold get_exchange_rates;
      rewrite (bind_ok _ _ _ _ _ L); [reflexivity|now rewrite T]. }
  assert (Hfresh : forall w0,
             snd (load (upper X) w) = w0 ->
             snd (get_rates_of X w) = snd (fetch_fresh (upper X) w0) ->
             (forall p, p <> _get_cache_file X ->
                        files (snd (get_rates_of X w)) !! p = files w !! p)
             /\ write_fault (snd (get_rates_of X w)) = write_fault w
             /\ clock (snd (get_rates_of X w)) = clock w
             /\ (ticks w <= ticks (snd (get_rates_of X w)))%nat
             /\ (fetch_count (trace w)
                 <= fetch_count (trace (snd (get_rates_of X w)))
                 <= S (fetch_count (trace w)))%nat).
  { intros w0 E ->. rewrite E in Hf, Hw, Hc, Hn, Ht.
    destruct (fetch_fresh_frame (upper X) w0) as (Ff & Fw & Fc & Ft & Fn).
    rewrite get_cache_file_upper in Ff.
    repeat split.
    - intros p Hp. now rewrite (Ff p Hp), Hf.
    - now rewrite Fw.
    - now rewrite Fc.
    - lia.
    - lia.
    - lia. }
  destruct (load (upper X) w) as [[[data|]|e] w0] eqn:L; cbn [snd] in *.
  - destruct (dict_truthy data) eqn:T.
    + rewrite (get_rates_hit _ _ _ _ L T). cbn [snd].
      rewrite fetch_count_record. cbn [is_fetch].
      repeat split; try (cbn; congruence); cbn; lia.
    + apply (Hfresh w0 eq_refl). apply Hmiss. right. now exists data.
  - apply (Hfresh w0 eq_refl). apply Hmiss. now left.
  - rewrite (get_rates_load_raises _ _ _ _ L). cbn [snd].
    repeat split; try congruence; lia.
Qed.

Lemma convert_unparsed amount f t date w :
  parse_amount float_of_str amount = None ->
  convert_ amount f t date w
  = (Raise (Exception ValueError "Amount must be a number"), w).
Proof.
  intros H. destruct (float_of_unparsed _ w H) as (e & He & Hr).
  unfold convert. apply bind_raise.
  rewrite (try_except_raise _ _ _ _ _ Hr). now rewrite He.
Qed.

Lemma convert_world amount a f t date w :
  parse_amount float_of_str amount = Some a ->
  upper f <> upper t ->
  snd (convert_ amount f t date w) = snd (get_rates_of f w).
Proof.
  intros Ha Hne. rewrite (convert_parsed _ _ _ _ _ _ Ha).
  destruct (decide (upper f = upper t)) as [E|_]; [contradiction|].
  unfold bind. rewrite get_rates_upper.
  destruct (get_rates_of f w) as [[d|e] w']; [|reflexivity].
  destruct (d_rates d) as [table|]; [|reflexivity]. cbn.
  now destruct (table !! upper t).
Qed.

(** X5: whatever its outcome, a conversion asks the provider at most once,
    changes no file of the cache other than the one of the source currency,
    and leaves the storage faults and the clock oracle alone. *)
Theorem convert_frame amount f t date w :
  (forall p, p <> _get_cache_file f ->
     files (snd (convert_ amount f t date w)) !! p = files w !! p)
  /\ (fetch_count (trace w)
      <= fetch_count (trace (snd (convert_ amount f t date w)))
      <= S (fetch_count (trace w)))%nat
  /\ write_fault (snd (convert_ amount f t date w)) = write_fault w
  /\ clock (snd (convert_ amount f t date w)) = clock w
  /\ (ticks w <= ticks (snd (convert_ amount f t date w)))%nat.
Proof.
  destruct (parse_amount float_of_str amount) as [a|] eqn:Ha.
  - destruct (decide (upper f = upper t)) as [E|Hne].
    + rewrite (convert_same_code _ _ _ _ _ _ Ha E). cbn [snd].
      repeat split; lia.
    + rewrite (convert_world _ _ _ _ _ _ Ha Hne).
      destruct (get_rates_frame f w) as (Hf & Hw & Hc & Ht & Hn).
      repeat split; try assumption; lia.
  - rewrite (convert_unparsed _ _ _ _ _ Ha). cbn [snd].
    repeat split; lia.
Qed.

(** *** What a successful call leaves behind *)

Lemma fetch_fresh_ok_entry b d w w' :
  fetch_fresh b w = (Ok d, w') ->
  exists data s t,
    files w' !! _get_cache_file b = Some (Json data)
    /\ d_base data = d_base d
    /\ d_rates data = d_rates d
    /\ d_expires_at data = Some s
    /\ fromisoformat s = Some t.
Proof.
  intros Hok.
  destruct (fetch_fresh_ok_filed _ _ _ _ Hok) as (data & expiry & H & B & R & E).
  exists data, (isoformat expiry), expiry.
  repeat split; try assumption. apply fromisoformat_isoformat.
Qed.

(** X6: whenever [get_exchange_rates] returns rates, the file of that
    currency holds an entry with the base and the rates returned and with an
    expiry that reads back as a timestamp: rates are never handed out
    without being in the cache. *)
Theorem returned_rates_are_cached X d w w' :
  get_rates_of X w = (Ok d, w') ->
  exists data s t,
    files w' !! _get_cache_file X = Some (Json data)
    /\ d_base data = d_base d
    /\ d_rates data = d_rates d
    /\ d_expires_at data = Some s
    /\ fromisoformat s = Some t.
Proof.
  intros Hok. rewrite <- (get_cache_file_upper X).
  destruct (load (upper X) w) as [[[data|]|e] w0] eqn:L.
  - destruct (load_some_entry _ _ _ _ L) as (Hfile & s & t & E & F).
    rewrite (get_rates_hit _ _ _ _ L (expiring_dict_truthy _ _ E)) in Hok.
    injection Hok as <- <-.
    exists data, s, t. now repeat split.
  - rewrite (get_rates_miss _ _ _ L) in Hok.
    exact (fetch_fresh_ok_entry _ _ _ _ Hok).
  - now rewrite (get_rates_load_raises _ _ _ _ L) in Hok.
Qed.

(** *** Further properties of [convert] *)

(** X7: [convert] looks at its currency codes only through [upper]: codes
    that differ in the case of their letters give the same conversion, with
    the same effects. *)
Theorem convert_case_insensitive amount f f' t t' date date' w :
  upper f = upper f' ->
  upper t = upper t' ->
  convert float_of_str isoformat fromisoformat date_str api_client
    amount f t date w
  = convert float_of_str isoformat fromisoformat date_str api_client
      amount f' t' date' w.
Proof. intros Ef Et. unfold convert. now rewrite Ef, Et. Qed.

(** X8: for a parseable amount and two different codes, an exception of
    [get_exchange_rates] is the exception of [convert], unchanged: a failed
    fetch stays an [APIError], an unreadable cache entry stays what reading
    it raised. *)
Theorem convert_propagates_rate_errors amount a f t date e w w' :
  parse_amount float_of_str amount = Some a ->
  upper f <> upper t ->
  get_rates_of f w = (Raise e, w') ->
  convert_ amount f t date w = (Raise e, w').
Proof.
  intros Ha Hne G. rewrite (convert_parsed _ _ _ _ _ _ Ha).
  destruct (decide (upper f = upper t)) as [E|_]; [contradiction|].
  apply bind_raise. now rewrite get_rates_upper.
Qed.

(** X9: a fresh cache entry that has no ['rates'] key makes every
    conversion from its currency to another one raise [KeyError('rates')],
    not an unknown-currency error, and the provider is not asked for better
    rates. *)
Theorem entry_without_rates_is_key_error amount a f t date d s expires_at w :
  parse_amount float_of_str amount = Some a ->
  upper f <> upper t ->
  files w !! _get_cache_file f = Some (Json d) ->
  d_expires_at d = Some s ->
  fromisoformat s = Some expires_at ->
  clock w (ticks w) < expires_at ->
  d_rates d = None ->
  fst (convert_ amount f t date w) = Raise (Exception KeyError "'rates'")
  /\ fetch_count (trace (snd (convert_ amount f t date w)))
     = fetch_count (trace w)
  /\ files (snd (convert_ amount f t date w)) = files w.
Proof.
  intros Ha Hne H E F Hlt R.
  assert (L : load (upper f) w = (Ok (Some d), tick (opened f w))).
  { rewrite <- get_cache_file_upper in H.
    rewrite (load_entry _ _ _ _ _ H E F), opened_upper.
    apply Z.ltb_lt in Hlt. now rewrite Hlt. }
  pose proof (get_rates_hit _ _ _ _ L (expiring_dict_truthy _ _ E)) as G.
  rewrite <- get_rates_upper in G.
  rewrite (convert_parsed _ _ _ _ _ _ Ha).
  destruct (decide (upper f = upper t)) as [Eq|_]; [contradiction|].
  rewrite (bind_ok _ _ _ _ _ G), R. cbn [getitem bind raise fst snd].
  repeat split.
  rewrite fetch_count_record. cbn [is_fetch]. rewrite fetch_count_tick.
  unfold opened, looked_up. now rewrite !fetch_count_record.
Qed.

(** *** A cache lifetime that is not positive *)

(** X10: with a [cache_timeout] of zero or less, a clock that does not
    run backwards and an expiry, the clock reading plus [cache_timeout]
    seconds, that is a datetime, an entry is stale as soon as it is filed:
    the [get_exchange_rates] that follows the one that fetched and filed it
    asks the provider again. *)
Theorem nonpositive_timeout_never_caches X d b r w :
  cache_timeout api_client <= 0 ->
  clock w (ticks w) <= clock w (S (S (ticks w))) ->
  files w !! _get_cache_file X = None ->
  get_rates api_client (fetch_count (trace w)) (upper X) = Ok d ->
  plus_seconds (clock w (ticks w)) (cache_timeout api_client)
  = Ok (clock w (ticks w) + timedelta_seconds (cache_timeout api_client)) ->
  d_base d = Some b ->
  d_rates d = Some r ->
  write_fault w (_get_cache_file X) = None ->
  fst (get_rates_of X w) = Ok d
  /\ fetch_count (trace (snd (get_rates_of X (snd (get_rates_of X w)))))
     = S (S (fetch_count (trace w))).
Proof.
  intros Hto Hclock Hmiss G Hsum B R F.
  rewrite <- get_cache_file_upper in Hmiss, F.
  assert (G' : get_rates api_client
                 (fetch_count (trace (looked_up (upper X) w))) (upper X) = Ok d).
  { unfold looked_up. now rewrite fetch_count_record. }
  rewrite (get_rates_miss _ _ _ (load_missing _ _ Hmiss)).
  rewrite (fetch_fresh_ok _ d b r _ _ G' Hsum B R F). cbn [fst snd].
  split; [reflexivity|].
  match goal with
  | |- fetch_count (trace (snd (get_rates_of X ?w0))) = _ => set (w1 := w0)
  end.
  assert (Hn1 : fetch_count (trace w1) = S (fetch_count (trace w))).
  { unfold w1. cbn [write_file trace]. rewrite fetch_count_record.
    cbn [is_fetch]. rewrite fetch_count_tick. unfold fetched.
    rewrite fetch_count_tick, !fetch_count_record. cbn [is_fetch].
    unfold looked_up. now rewrite fetch_count_record. }
  set (expiry := clock w (ticks w)
                 + timedelta_seconds (cache_timeout api_client)).
  assert (Hfile : exists data,
             files w1 !! _get_cache_file (upper X) = Some (Json data)
             /\ d_expires_at data = Some (isoformat expiry)).
  { eexists. split; [unfold w1; cbn; apply lookup_insert_eq|reflexivity]. }
  destruct Hfile as (data & Hfile & E).
  assert (L : load (upper X) w1 = (Ok None, tick (opened (upper X) w1))).
  { rewrite (load_entry _ _ _ expiry _ Hfile E (fromisoformat_isoformat _)).
    replace (clock w1 (ticks w1)) with (clock w (S (S (ticks w))))
      by reflexivity.
    assert (Hlt : expiry <= clock w (S (S (ticks w)))).
    { unfold expiry, timedelta_seconds. lia. }
    apply Z.ltb_ge in Hlt. now rewrite Hlt. }
  rewrite (get_rates_miss _ _ _ L).
  destruct (fetch_fresh_frame (upper X) (tick (opened (upper X) w1)))
    as (_ & _ & _ & _ & Hn).
  rewrite Hn, fetch_count_tick. unfold opened, looked_up.
  now rewrite !fetch_count_record, Hn1.
Qed.

(** *** [get_supported_currencies] *)

(** X13: the codes that [get_supported_currencies] returns are the keys of
    the rates that [get_exchange_rates] gives for USD in the same world,
    each once; the effects of the call are those of that
    [get_exchange_rates]. *)
Theorem supported_currencies_are_rate_keys L w w' :
  get_supported_currencies isoformat fromisoformat date_str api_client w
  = (Ok L, w') ->
  exists d r,
    get_exchange_rates isoformat fromisoformat date_str api_client "USD" w
    = (Ok d, w')
    /\ d_rates d = Some r
    /\ (forall c, c ∈ L <-> is_Some (r !! c))
    /\ NoDup L
    /\ length L = size r.
Proof.
  unfold get_supported_currencies, bind.
  destruct (get_rates_of "USD" w) as [[d|e] w1]; [|discriminate].
  destruct (d_rates d) as [r|] eqn:R; [|discriminate]. cbn.
  intros [= <- <-]. exists d, r. repeat split; try assumption.
  - intros Hc. apply list_elem_of_fmap in Hc as ([k v] & -> & Hkv).
    apply elem_of_map_to_list in Hkv. now exists v.
  - intros [v Hv]. apply list_elem_of_fmap. exists (c, v).
    split; [reflexivity|]. now apply elem_of_map_to_list.
  - apply NoDup_fst_map_to_list.
  - now rewrite length_map, length_map_to_list.
Qed.

(** X14: in a world where [get_supported_currencies] succeeds, a conversion
    of a parseable amount from USD to a code other than USD succeeds exactly
    when the uppercased code is one of the supported ones; it fails as an
    unknown currency otherwise, a listed code with lowercase letters
    included. *)
Theorem convert_succeeds_iff_supported amount a c date L w w' :
  supported w = (Ok L, w') ->
  parse_amount float_of_str amount = Some a ->
  upper c <> "USD" ->
  (upper c ∈ L ->
     exists rate,
       convert_ amount "USD" c date w = (Ok (PrimFloat.mul a rate), w'))
  /\ (upper c ∉ L ->
        exists msg,
          convert_ amount "USD" c date w
          = (Raise (Exception InvalidCurrencyError msg), w')).
Proof.
  intros HL Ha Hne.
  assert (Hd : exists d r,
             get_rates_of "USD" w = (Ok d, w') /\ d_rates d = Some r
             /\ forall k, k ∈ L <-> is_Some (r !! k)).
  { revert HL. unfold get_supported_currencies, bind.
    destruct (get_rates_of "USD" w) as [[d|e] w1]; [|discriminate].
    destruct (d_rates d) as [r|] eqn:R; [|discriminate]. cbn.
    intros [= <- <-]. exists d, r. repeat split; try assumption.
    - intros Hc. apply list_elem_of_fmap in Hc as ([k' v] & -> & Hkv).
      apply elem_of_map_to_list in Hkv. now exists v.
    - intros [v Hv]. apply list_elem_of_fmap. exists (k, v).
      split; [reflexivity|]. now apply elem_of_map_to_list. }
  destruct Hd as (d & r & G & R & Hkeys).
  rewrite (convert_parsed _ _ _ _ _ _ Ha).
  change (upper "USD") with "USD".
  destruct (decide ("USD" = upper c)) as [E|_]; [now symmetry in E|].
  rewrite (bind_ok _ _ _ _ _ G), R. cbn [getitem bind ret].
  split.
  - intros Hin. apply Hkeys in Hin as [rate Hrate].
    exists rate. now rewrite Hrate.
  - intros Hnot. destruct (r !! upper c) as [rate|] eqn:Hrate.
    + exfalso. apply Hnot, Hkeys. now exists rate.
    + now eexists.
Qed.

(** ** The form *)

Variable validate_amount : string -> bool.
Variable format_4f : float -> string.

Abbreviation async_convert :=
  (_async_perform_conversion float_of_str isoformat fromisoformat date_str
     api_client format_4f).
Abbreviation initialize :=
  (initialize_currencies isoformat fromisoformat date_str api_client).

Lemma async_convert_ok amount f t date x g w w1 :
  convert_ (AmountStr amount) f t date w = (Ok x, w1) ->
  async_convert amount f t date g w
  = (Ok tt,
     (config_cursor ""
        (set_status_var "Conversion successful"
           (set_result_var
              (amount +:+ " " +:+ f +:+ " = " +:+ format_4f x +:+ " " +:+ t)
              (waiting "Converting..." g))),
      w1)).
Proof.
  intros H.
  unfold _async_perform_conversion, gfinally, gtry, gbind, await, widget.
  now rewrite H.
Qed.

Lemma async_convert_raise amount f t date e g w w1 :
  convert_ (AmountStr amount) f t date w = (Raise e, w1) ->
  async_convert amount f t date g w
  = match exn_type e with
    | InvalidCurrencyError =>
        (Ok tt,
         (config_cursor ""
            (set_status_var "Invalid currency"
               (showerror "Error" ("Invalid currency: " +:+ exn_str e)
                  (waiting "Converting..." g))),
          w1))
    | APIError =>
        (Ok tt,
         (config_cursor ""
            (set_status_var "API error"
               (showerror "Error" ("API error: " +:+ exn_str e)
                  (waiting "Converting..." g))),
          w1))
    | _ =>
        (Ok tt,
         (config_cursor ""
            (set_status_var "Conversion failed"
               (showerror "Error" ("Conversion failed: " +:+ exn_str e)
                  (waiting "Converting..." g))),
          record_event (LogError ("Conversion error: " +:+ exn_str e)) w1))
    end.
Proof.
  intros H.
  unfold _async_perform_conversion, gfinally, gtry, gbind, await, widget.
  rewrite H. now destruct (exn_type e).
Qed.

(** X15: [_async_perform_conversion] lets no exception of the converter
    through and always ends with the default cursor.  When the conversion
    succeeds it shows the typed amount and codes with the formatted result
    and no error box; when it fails it keeps the result that was displayed
    before, shows exactly one error box and does not report success. *)
Theorem async_conversion_never_raises amount f t date g w :
  exists g' w',
    _async_perform_conversion float_of_str isoformat fromisoformat date_str
      api_client format_4f amount f t date g w
    = (Ok tt, (g', w'))
    /\ cursor g' = ""
    /\ match fst (convert float_of_str isoformat fromisoformat date_str
                    api_client (AmountStr amount) f t date w) with
       | Ok x =>
           result_var g'
           = amount +:+ " " +:+ f +:+ " = " +:+ format_4f x +:+ " " +:+ t
           /\ status_var g' = "Conversion successful"
           /\ error_boxes g' = error_boxes g
       | Raise e =>
           result_var g' = result_var g
           /\ status_var g' <> "Conversion successful"
           /\ exists msg, error_boxes g' = error_boxes g ++ [("Error", msg)]
       end.
Proof.
  destruct (convert_ (AmountStr amount) f t date w) as [[x|e] w1] eqn:H.
  - rewrite (async_convert_ok _ _ _ _ _ g _ _ H).
    eexists _, _. now repeat split.
  - rewrite (async_convert_raise _ _ _ _ _ g _ _ H).
    destruct (exn_type e); eexists _, _; cbn;
      (split; [reflexivity|]); repeat split; try discriminate; now eexists.
Qed.

(** X16: an amount that does not parse, had it passed the check of the
    form, is reported by [_async_perform_conversion] as a failed conversion:
    one error box "Conversion failed: Amount must be a number", the same
    text logged as an error, the status "Conversion failed", and neither
    the cache nor the provider touched. *)
Theorem form_reports_invalid_amount amount f t date g w :
  float_of_str amount = None ->
  exists g',
    async_convert amount f t date g w
    = (Ok tt,
       (g', record_event
              (LogError "Conversion error: Amount must be a number") w))
    /\ status_var g' = "Conversion failed"
    /\ error_boxes g'
       = error_boxes g
         ++ [("Error", "Conversion failed: Amount must be a number")]
    /\ result_var g' = result_var g
    /\ cursor g' = "".
Proof.
  intros H.
  assert (Hc : convert_ (AmountStr amount) f t date w
               = (Raise (Exception ValueError "Amount must be a number"), w))
    by now apply convert_unparsed.
  rewrite (async_convert_raise _ _ _ _ _ g _ _ Hc). cbn.
  eexists. now repeat split.
Qed.

(** X17: a target code that the obtained rates do not list is reported as
    an invalid currency, with the uppercased code in the error box; nothing
    is logged beyond what the converter logged. *)
Theorem form_reports_unknown_currency amount a f t date d table g w w1 :
  float_of_str amount = Some a ->
  upper f <> upper t ->
  get_rates_of f w = (Ok d, w1) ->
  d_rates d = Some table ->
  table !! upper t = None ->
  exists g',
    async_convert amount f t date g w = (Ok tt, (g', w1))
    /\ status_var g' = "Invalid currency"
    /\ error_boxes g'
       = error_boxes g
         ++ [("Error",
              "Invalid currency: Currency " +:+ upper t
              +:+ " not found in rates")]
    /\ result_var g' = result_var g.
Proof.
  intros Ha Hne Gr R Hnone.
  assert (Hc : convert_ (AmountStr amount) f t date w
               = (Raise (Exception InvalidCurrencyError
                           ("Currency " +:+ upper t +:+ " not found in rates")),
                  w1)).
  { rewrite (convert_parsed (AmountStr amount) a) by exact Ha.
    destruct (decide (upper f = upper t)) as [E|_]; [contradiction|].
    rewrite <- get_rates_upper in Gr.
    rewrite (bind_ok _ _ _ _ _ Gr), R. cbn. now rewrite Hnone. }
  rewrite (async_convert_raise _ _ _ _ _ g _ _ Hc). cbn.
  eexists. now repeat split.
Qed.

(** X18: what the form shows for a failure to get rates depends on where
    it happened.  A provider that raises on a cache miss is shown as "API
    error", with the provider's description; a cache entry that cannot be
    read is shown as "Conversion failed", with what reading it raised, and
    is logged by the form. *)
Theorem form_tells_provider_from_cache_failure amount a f t date e g w :
  float_of_str amount = Some a ->
  upper f <> upper t ->
  (fst (load (upper f) w) = Ok None ->
   get_rates api_client (fetch_count (trace w)) (upper f) = Raise e ->
   exists g' w',
     async_convert amount f t date g w = (Ok tt, (g', w'))
     /\ status_var g' = "API error"
     /\ error_boxes g'
        = error_boxes g
          ++ [("Error",
               "API error: Could not fetch exchange rates: " +:+ exn_str e)])
  /\ (files w !! _get_cache_file f = Some (Unreadable e) ->
      exn_type e <> InvalidCurrencyError ->
      exn_type e <> APIError ->
      exists g' w',
        async_convert amount f t date g w = (Ok tt, (g', w'))
        /\ status_var g' = "Conversion failed"
        /\ error_boxes g'
           = error_boxes g ++ [("Error", "Conversion failed: " +:+ exn_str e)]
        /\ fetch_count (trace w') = fetch_count (trace w)).
Proof.
  intros Ha Hne.
  assert (Hprop : forall e' w1,
             get_rates_of f w = (Raise e', w1) ->
             convert_ (AmountStr amount) f t date w = (Raise e', w1)).
  { intros e' w1 Gr. rewrite (convert_parsed (AmountStr amount) a) by exact Ha.
    destruct (decide (upper f = upper t)) as [E|_]; [contradiction|].
    apply bind_raise. now rewrite get_rates_upper. }
  split.
  - intros Hmiss Gp.
    destruct (load (upper f) w) as [res w0] eqn:L. cbn in Hmiss. subst res.
    destruct (load_preserves (upper f) w) as (_ & _ & _ & Hn).
    rewrite L in Hn. cbn [snd] in Hn. rewrite <- Hn in Gp.
    pose proof (get_rates_miss _ _ _ L) as Gr.
    rewrite (fetch_fresh_fetch_raises _ _ _ Gp) in Gr.
    rewrite (async_convert_raise _ _ _ _ _ g _ _ (Hprop _ _ Gr)). cbn.
    eexists _, _. now repeat split.
  - intros Hfile Hc1 Hc2.
    rewrite <- get_cache_file_upper in Hfile.
    pose proof (get_rates_load_raises _ _ _ _ (load_unreadable _ _ _ Hfile))
      as Gr.
    rewrite (async_convert_raise _ _ _ _ _ g _ _ (Hprop _ _ Gr)).
    destruct (exn_type e); try contradiction;
      eexists _, _; (split; [reflexivity|]);
      (split; [reflexivity|]); (split; [reflexivity|]);
      rewrite fetch_count_record; cbn [is_fetch]; unfold opened, looked_up;
      now rewrite !fetch_count_record.
Qed.

(** X19: [initialize_currencies] never raises and always ends with the
    default cursor.  When [get_supported_currencies] returns, both
    comboboxes offer the returned codes and the status counts them; when it
    raises, the comboboxes keep their values, the failure is logged and
    shown in one error box, and the status is "Currency load failed". *)
Theorem initialize_currencies_outcome g w :
  exists g' w',
    initialize g w = (Ok tt, (g', w'))
    /\ cursor g' = ""
    /\ match supported w with
       | (Ok currencies, w1) =>
           w' = w1
           /\ from_currency_values g' = currencies
           /\ to_currency_values g' = currencies
           /\ status_var g'
              = "Loaded " +:+ str_of_nat (length currencies) +:+ " currencies"
           /\ error_boxes g' = error_boxes g
       | (Raise e, w1) =>
           w' = record_event
                  (LogError ("Failed to load currencies: " +:+ exn_str e)) w1
           /\ from_currency_values g' = from_currency_values g
           /\ to_currency_values g' = to_currency_values g
           /\ status_var g' = "Currency load failed"
           /\ error_boxes g'
              = error_boxes g
                ++ [("Error", "Failed to load currencies: " +:+ exn_str e)]
       end.
Proof.
  unfold initialize_currencies, gfinally, gtry, gbind, await, widget, emit.
  destruct (supported w) as [[currencies|e] w1];
    eexists _, _; (split; [reflexivity|]); now repeat split.
Qed.

(** *** The synchronous methods of the form *)

(** X20: [swap_currencies] exchanges the two selected codes and leaves
    every other part of the form (the amount, the date, the result and
    status texts, the cursor, the lists of codes, the error boxes and the
    scheduled calls) as it was, so that swapping twice gives the form back;
    a conversion requested after a swap is the one requested before it with
    source and target exchanged. *)
Theorem swap_currencies_involutive g :
  swap_currencies g
  = mkGUI (amount_var g) (to_currency_var g) (from_currency_var g)
          (historical_date_var g) (result_var g) (status_var g) (cursor g)
          (from_currency_values g) (to_currency_values g) (error_boxes g)
          (after_calls g)
  /\ swap_currencies (swap_currencies g) = g
  /\ from_currency_var (swap_currencies g) = to_currency_var g
  /\ to_currency_var (swap_currencies g) = from_currency_var g
  /\ forall amount f t date,
       after_calls (perform_conversion validate_amount g)
       = after_calls g ++ [CallAsyncPerformConversion amount f t date] ->
       after_calls (perform_conversion validate_amount (swap_currencies g))
       = after_calls g ++ [CallAsyncPerformConversion amount t f date].
Proof.
  split; [reflexivity|].
  split; [now destruct g|]. split; [reflexivity|]. split; [reflexivity|].
  intros amount f t date. unfold perform_conversion.
  change (amount_var (swap_currencies g)) with (amount_var g).
  change (historical_date_var (swap_currencies g)) with (historical_date_var g).
  change (from_currency_var (swap_currencies g)) with (to_currency_var g).
  change (to_currency_var (swap_currencies g)) with (from_currency_var g).
  destruct (validate_amount (amount_var g)); cbn [negb].
  - rewrite (orb_comm (negb (str_truthy (to_currency_var g)))).
    destruct (negb (str_truthy (from_currency_var g))
              || negb (str_truthy (to_currency_var g)))%bool.
    + cbn. intros E. apply (f_equal length) in E.
      rewrite length_app in E. cbn in E. lia.
    + cbn. intros E. apply app_inv_head in E. now injection E as <- <- <- <-.
  - cbn. intros E. apply (f_equal length) in E.
    rewrite length_app in E. cbn in E. lia.
Qed.

(** X21: [perform_conversion] hands a conversion to [root.after] exactly
    when the amount passes [validate_amount] and both codes are non-empty,
    with the date of the form or no date when that field is empty;
    otherwise it shows one error box, complaining about the amount first,
    and requests nothing.  It never changes the displayed result or the
    status. *)
Theorem perform_conversion_requests_iff_valid g :
  let g' := perform_conversion validate_amount g in
  (validate_amount (amount_var g) = true ->
   from_currency_var g <> "" ->
   to_currency_var g <> "" ->
   after_calls g'
   = after_calls g
     ++ [CallAsyncPerformConversion (amount_var g) (from_currency_var g)
           (to_currency_var g)
           (if decide (historical_date_var g = "") then None
            else Some (historical_date_var g))]
   /\ error_boxes g' = error_boxes g)
  /\ (validate_amount (amount_var g) = false ->
      after_calls g' = after_calls g
      /\ error_boxes g'
         = error_boxes g ++ [("Error", "Please enter a valid amount")])
  /\ (validate_amount (amount_var g) = true ->
      from_currency_var g = "" \/ to_currency_var g = "" ->
      after_calls g' = after_calls g
      /\ error_boxes g'
         = error_boxes g ++ [("Error", "Please select both currencies")])
  /\ result_var g' = result_var g
  /\ status_var g' = status_var g.
Proof.
  unfold perform_conversion. cbn zeta.
  split; [|split; [|split]].
  - intros -> Hf Ht. cbn [negb].
    destruct (from_currency_var g); [contradiction|].
    destruct (to_currency_var g); [contradiction|]. cbn.
    split; [|reflexivity].
    destruct (historical_date_var g); [reflexivity|].
    now destruct (decide _).
  - now intros ->.
  - intros -> [E|E]; rewrite E; cbn; [easy|].
    now rewrite orb_true_r.
  - destruct (validate_amount (amount_var g)); cbn [negb]; [|easy].
    now destruct (negb (str_truthy (from_currency_var g))
                  || negb (str_truthy (to_currency_var g)))%bool.
Qed.

End Properties.

(** * The properties on the sample environment *)

Lemma sample_fromisoformat_isoformat t :
  sample_fromisoformat (sample_isoformat t) = Some t.
Proof.
  unfold sample_fromisoformat, sample_isoformat.
  rewrite NilEmpty.isi. cbn. now rewrite DecimalZ.of_to.
Qed.

Lemma convert_identity_witness :
  parse_amount sample_float_of_str (AmountStr "10") = Some 10%float
  /\ sample_convert sample_api (AmountStr "10") "USD" "USD" None empty_world
     = (Ok 10%float, empty_world).
Proof.
  split; [reflexivity|].
  apply (convert_identity sample_float_of_str sample_isoformat
           sample_fromisoformat sample_date_str sample_api (AmountStr "10")
           10%float "USD" None empty_world).
  reflexivity.
Defined.

Lemma load_fresh_until_expiry_witness :
  (clock cached_world (ticks cached_world) < 3600000000 ->
     fst (sample_load "USD" cached_world) = Ok (Some cached_entry))
  /\ (3600000000 <= clock cached_world (ticks cached_world) ->
        fst (sample_load "USD" cached_world) = Ok None)
  /\ files (snd (sample_load "USD" cached_world)) = files cached_world.
Proof.
  apply (load_fresh_until_expiry sample_fromisoformat "USD" cached_entry
           "3600000000" 3600000000 cached_world); reflexivity.
Defined.


Lemma convert_invalid_amount_witness :
  parse_amount sample_float_of_str (AmountStr "abc") = None
  /\ sample_convert sample_api (AmountStr "abc") "USD" "EUR" None empty_world
     = (Raise (Exception ValueError "Amount must be a number"), empty_world).
Proof.
  split; [reflexivity|].
  apply (convert_invalid_amount sample_float_of_str sample_isoformat
           sample_fromisoformat sample_date_str sample_api (AmountStr "abc")
           "USD" "EUR" None empty_world).
  reflexivity.
Defined.

Lemma convert_unknown_or_product_witness :
  (sample_rates !! "EUR" = None ->
     exists msg,
       sample_convert sample_api (AmountStr "10") "usd" "eur" None empty_world
       = (Raise (Exception InvalidCurrencyError msg),
          snd (sample_get_rates sample_api "usd" empty_world))
       /\ infix "EUR" msg)
  /\ (forall rate,
        sample_rates !! "EUR" = Some rate ->
        sample_convert sample_api (AmountStr "10") "usd" "eur" None empty_world
        = (Ok (PrimFloat.mul 10%float rate),
           snd (sample_get_rates sample_api "usd" empty_world))).
Proof.
  apply (convert_unknown_or_product sample_float_of_str sample_isoformat
           sample_fromisoformat sample_date_str sample_api (AmountStr "10")
           10%float "usd" "eur" None sample_snapshot sample_rates empty_world).
  - reflexivity.
  - vm_compute. discriminate.
  - vm_compute. reflexivity.
  - reflexivity.
Defined.

Lemma store_load_round_trip_witness :
  exists data w',
    (do! sample_save "USD" sample_snapshot 3600000000 in sample_load "USD")
      empty_world
    = (Ok (Some data), w')
    /\ d_base data = Some "USD"
    /\ d_rates data = Some sample_rates
    /\ d_date data = Some "2024-01-15".
Proof.
  apply (store_load_round_trip sample_isoformat sample_fromisoformat
           sample_date_str sample_fromisoformat_isoformat sample_snapshot
           "USD" sample_rates "2024-01-15" 3600000000 empty_world);
    reflexivity.
Defined.


Lemma sample_rates_uppercase : keys_uppercase sample_rates.
Proof.
  unfold keys_uppercase, sample_rates.
  apply map_Forall_insert_2; [reflexivity|].
  apply map_Forall_insert_2; [reflexivity|].
  apply map_Forall_empty.
Qed.

Lemma stored_snapshot_follows_provider_witness :
  cache_invariant (snd (sample_get_rates sample_api "usd" empty_world)).
Proof.
  apply (stored_snapshot_follows_provider sample_isoformat sample_fromisoformat
           sample_date_str sample_api "usd" empty_world).
  - intros path d H. unfold empty_world in H. cbn [files] in H.
    rewrite lookup_empty in H. discriminate.
  - intros d [= <-]. split; [apply sample_rates_uppercase|reflexivity].
Defined.

(** ** Where the code departs from the specification *)


(** C5: an entry that is not JSON makes [load] raise, and
    [get_exchange_rates] with it; the entry is not treated as absent and no
    rates are fetched. *)
Lemma corrupt_entry_counterexample :
  files corrupt_world !! _get_cache_file "USD"
  = Some (Unreadable (Exception JSONDecodeError "Expecting value"))
  /\ fst (sample_load "USD" corrupt_world)
     = Raise (Exception JSONDecodeError "Expecting value")
  /\ fst (sample_load "USD" corrupt_world) <> Ok None
  /\ fst (sample_get_rates sample_api "USD" corrupt_world)
     = Raise (Exception JSONDecodeError "Expecting value")
  /\ fetch_count (trace (snd (sample_get_rates sample_api "USD" corrupt_world)))
     = 0%nat.
Proof.
  repeat split; try reflexivity.
  vm_compute. discriminate.
Qed.

(** C10: a provider whose rates list the base itself and a lowercase code;
    the snapshot that [get_exchange_rates] saves has both. *)
Lemma loose_provider_counterexample :
  cache_invariant empty_world
  /\ ~ cache_invariant (snd (sample_get_rates loose_api "USD" empty_world))
  /\ (exists d r,
        files (snd (sample_get_rates loose_api "USD" empty_world))
          !! "USD_rates.json" = Some (Json d)
        /\ d_base d = Some "USD"
        /\ d_rates d = Some r
        /\ is_Some (r !! "USD")
        /\ is_Some (r !! "eur")
        /\ upper "eur" <> "eur").
Proof.
  split; [|split].
  - intros path d H. unfold empty_world in H. cbn [files] in H.
    rewrite lookup_empty in H. discriminate.
  - intros H.
    specialize (H "USD_rates.json"
                  {| d_base := Some "USD"; d_rates := Some loose_rates;
                     d_date := Some (sample_date_str 1000000);
                     d_expires_at := Some (sample_isoformat 3600000000) |}
                  eq_refl).
    destruct H as [_ H]. vm_compute in H. discriminate.
  - eexists _, _. split; [vm_compute; reflexivity|].
    repeat split; try reflexivity.
    + now eexists.
    + now eexists.
    + vm_compute. discriminate.
Qed.

(** ** The further properties on the sample environment *)

Lemma cache_hit_contacts_no_provider_witness :
  fst (sample_get_rates down_api "usd" cached_world) = Ok cached_entry
  /\ files (snd (sample_get_rates down_api "usd" cached_world))
     = files cached_world
  /\ trace (snd (sample_get_rates down_api "usd" cached_world))
     = trace cached_world
       ++ [FsExists "USD_rates.json"; FsOpenRead "USD_rates.json";
           LogInfo "Using cached rates for USD"]
  /\ fetch_count (trace (snd (sample_get_rates down_api "usd" cached_world)))
     = fetch_count (trace cached_world).
Proof.
  apply (cache_hit_contacts_no_provider sample_isoformat sample_fromisoformat
           sample_date_str down_api "usd" cached_entry "3600000000"
           3600000000 cached_world); reflexivity.
Defined.


Lemma provider_failure_keeps_cache_witness :
  fst (sample_get_rates down_api "usd" stale_world)
  = Raise (Exception APIError
             "Could not fetch exchange rates: Connection refused")
  /\ files (snd (sample_get_rates down_api "usd" stale_world))
     = files stale_world.
Proof.
  destruct (provider_failure_keeps_cache sample_isoformat sample_fromisoformat
              sample_date_str down_api "usd"
              (Exception ConnectionError "Connection refused") stale_world
              eq_refl eq_refl) as (H1 & H2 & _).
  split; [exact H1|exact H2].
Defined.


Lemma returned_rates_are_cached_witness :
  exists data s t,
    files (snd (sample_get_rates sample_api "usd" empty_world))
      !! "USD_rates.json" = Some (Json data)
    /\ d_base data = Some "USD"
    /\ d_rates data = Some sample_rates
    /\ d_expires_at data = Some s
    /\ sample_fromisoformat s = Some t.
Proof.
  apply (returned_rates_are_cached sample_isoformat sample_fromisoformat
           sample_date_str sample_api sample_fromisoformat_isoformat "usd"
           sample_snapshot empty_world
           (snd (sample_get_rates sample_api "usd" empty_world))).
  vm_compute. reflexivity.
Defined.

Lemma convert_case_insensitive_witness :
  sample_convert sample_api (AmountStr "10") "usd" "Eur" None empty_world
  = sample_convert sample_api (AmountStr "10") "USD" "eur" (Some "2024-01-15")
      empty_world.
Proof.
  apply (convert_case_insensitive sample_float_of_str sample_isoformat
           sample_fromisoformat sample_date_str sample_api (AmountStr "10")
           "usd" "USD" "Eur" "eur" None (Some "2024-01-15") empty_world);
    reflexivity.
Defined.

Lemma convert_propagates_rate_errors_witness :
  fst (sample_convert down_api (AmountStr "10") "usd" "eur" None empty_world)
  = Raise (Exception APIError
             "Could not fetch exchange rates: Connection refused").
Proof.
  rewrite (convert_propagates_rate_errors sample_float_of_str sample_isoformat
             sample_fromisoformat sample_date_str down_api (AmountStr "10")
             10%float "usd" "eur" None
             (Exception APIError
                "Could not fetch exchange rates: Connection refused")
             empty_world
             (snd (sample_get_rates down_api "usd" empty_world))).
  - reflexivity.
  - reflexivity.
  - vm_compute. discriminate.
  - vm_compute. reflexivity.
Defined.

Lemma entry_without_rates_is_key_error_witness :
  fst (sample_convert sample_api (AmountStr "10") "usd" "eur" None
         ratesless_world)
  = Raise (Exception KeyError "'rates'")
  /\ fetch_count
       (trace (snd (sample_convert sample_api (AmountStr "10") "usd" "eur"
                      None ratesless_world)))
     = fetch_count (trace ratesless_world)
  /\ files (snd (sample_convert sample_api (AmountStr "10") "usd" "eur" None
                   ratesless_world))
     = files ratesless_world.
Proof.
  apply (entry_without_rates_is_key_error sample_float_of_str sample_isoformat
           sample_fromisoformat sample_date_str sample_api (AmountStr "10")
           10%float "usd" "eur" None ratesless_entry "3600000000" 3600000000
           ratesless_world); try reflexivity.
  vm_compute. discriminate.
Defined.

Lemma nonpositive_timeout_never_caches_witness :
  fst (sample_get_rates uncached_api "usd" empty_world) = Ok sample_snapshot
  /\ fetch_count
       (trace (snd (sample_get_rates uncached_api "usd"
                      (snd (sample_get_rates uncached_api "usd" empty_world)))))
     = 2%nat.
Proof.
  apply (nonpositive_timeout_never_caches sample_isoformat sample_fromisoformat
           sample_date_str uncached_api sample_fromisoformat_isoformat "usd"
           sample_snapshot "USD" sample_rates empty_world);
    try reflexivity; vm_compute; discriminate.
Defined.

Lemma store_load_default_date_witness :
  exists data w',
    (do! sample_save "USD" dateless_snapshot 3600000000 in sample_load "USD")
      empty_world
    = (Ok (Some data), w')
    /\ d_date data = Some (sample_date_str 0).
Proof.
  apply (store_load_default_date sample_isoformat sample_fromisoformat
           sample_date_str sample_fromisoformat_isoformat dateless_snapshot
           "USD" sample_rates 3600000000 empty_world); reflexivity.
Defined.


Lemma supported_currencies_are_rate_keys_witness :
  exists d r,
    sample_get_rates sample_api "USD" empty_world
    = (Ok d, snd (sample_supported sample_api empty_world))
    /\ d_rates d = Some r
    /\ (forall c, c ∈ map fst (map_to_list sample_rates) <-> is_Some (r !! c))
    /\ NoDup (map fst (map_to_list sample_rates))
    /\ length (map fst (map_to_list sample_rates)) = size r.
Proof.
  apply (supported_currencies_are_rate_keys sample_isoformat
           sample_fromisoformat sample_date_str sample_api
           (map fst (map_to_list sample_rates)) empty_world
           (snd (sample_supported sample_api empty_world))).
  vm_compute. reflexivity.
Defined.

Lemma convert_succeeds_iff_supported_witness :
  (upper "eur" ∈ map fst (map_to_list sample_rates) ->
     exists rate,
       sample_convert sample_api (AmountStr "10") "USD" "eur" None empty_world
       = (Ok (PrimFloat.mul 10%float rate),
          snd (sample_supported sample_api empty_world)))
  /\ (upper "eur" ∉ map fst (map_to_list sample_rates) ->
        exists msg,
          sample_convert sample_api (AmountStr "10") "USD" "eur" None
            empty_world
          = (Raise (Exception InvalidCurrencyError msg),
             snd (sample_supported sample_api empty_world))).
Proof.
  apply (convert_succeeds_iff_supported sample_float_of_str sample_isoformat
           sample_fromisoformat sample_date_str sample_api (AmountStr "10")
           10%float "eur" None (map fst (map_to_list sample_rates))
           empty_world (snd (sample_supported sample_api empty_world))).
  - vm_compute. reflexivity.
  - reflexivity.
  - vm_compute. discriminate.
Defined.

Lemma form_reports_invalid_amount_witness :
  exists g',
    sample_async_convert sample_api sample_format_4f "abc" "usd" "eur" None
      blank_form empty_world
    = (Ok tt,
       (g', record_event (LogError "Conversion error: Amount must be a number")
              empty_world))
    /\ status_var g' = "Conversion failed"
    /\ error_boxes g'
       = error_boxes blank_form
         ++ [("Error", "Conversion failed: Amount must be a number")]
    /\ result_var g' = result_var blank_form
    /\ cursor g' = "".
Proof.
  apply (form_reports_invalid_amount sample_float_of_str sample_isoformat
           sample_fromisoformat sample_date_str sample_api sample_format_4f
           "abc" "usd" "eur" None blank_form empty_world).
  reflexivity.
Defined.

Lemma form_reports_unknown_currency_witness :
  exists g',
    sample_async_convert sample_api sample_format_4f "10" "usd" "zzz" None
      blank_form empty_world
    = (Ok tt, (g', snd (sample_get_rates sample_api "usd" empty_world)))
    /\ status_var g' = "Invalid currency"
    /\ error_boxes g'
       = error_boxes blank_form
         ++ [("Error", "Invalid currency: Currency ZZZ not found in rates")]
    /\ result_var g' = result_var blank_form.
Proof.
  apply (form_reports_unknown_currency sample_float_of_str sample_isoformat
           sample_fromisoformat sample_date_str sample_api sample_format_4f
           "10" 10%float "usd" "zzz" None sample_snapshot sample_rates
           blank_form empty_world
           (snd (sample_get_rates sample_api "usd" empty_world))).
  - reflexivity.
  - vm_compute. discriminate.
  - vm_compute. reflexivity.
  - reflexivity.
  - reflexivity.
Defined.

Lemma form_tells_provider_from_cache_failure_witness :
  exists g' w',
    sample_async_convert down_api sample_format_4f "10" "usd" "eur" None
      blank_form empty_world
    = (Ok tt, (g', w'))
    /\ status_var g' = "API error"
    /\ error_boxes g'
       = error_boxes blank_form
         ++ [("Error",
              "API error: Could not fetch exchange rates: Connection refused")].
Proof.
  assert (Hne : upper "usd" <> upper "eur") by (vm_compute; discriminate).
  destruct (form_tells_provider_from_cache_failure sample_float_of_str
              sample_isoformat sample_fromisoformat sample_date_str down_api
              sample_format_4f "10" 10%float "usd" "eur" None
              (Exception ConnectionError "Connection refused") blank_form
              empty_world eq_refl Hne) as (H1 & _).
  exact (H1 eq_refl eq_refl).
Defined.
